(** * docxjs: the DOCX-to-HTML command-line converter

    A shallow embedding of [scripts/docx-to-html.mjs]: the argument parser
    [parseArgs], the conversion routine [convertDocxToHtml] and the
    top-level "Main" block, together with the properties the specification
    states about them.

    Modelling conventions.
    - A JavaScript string is a [string]; [null] and [undefined] are made
      explicit where the script can produce them ([option], [js_value]).
    - [console.log] / [console.error] calls are recorded, in order, as
      [console_call]s carrying the list of their arguments.
    - [process.exit(n)] stops the computation: a process is either still
      [Running] with a value or has [Exited] with a status.
    - The file system is a finite map from paths to contents. *)

From Stdlib Require Import String Ascii List ZArith Bool.
From stdpp Require Import gmap strings list fin_maps.

Local Open Scope string_scope.

(** ** JavaScript values and the console *)

Inductive js_value : Type :=
  | JNull
  | JUndefined
  | JBool (b : bool)
  | JString (s : string).

Inductive console_call : Type :=
  | ConsoleLog (args : list string)
  | ConsoleError (args : list string).

(** A computation that may call [process.exit]: the console output so far
    and either a value or an exit status. *)
Inductive proc (A : Type) : Type :=
  | Running (out : list console_call) (a : A)
  | Exited (out : list console_call) (code : Z).
Arguments Running {A} out a.
Arguments Exited {A} out code.

Definition proc_ret {A} (a : A) : proc A := Running [] a.

Definition proc_bind {A B} (m : proc A) (k : A -> proc B) : proc B :=
  match m with
  | Running out a =>
      match k a with
      | Running out' b => Running (out ++ out') b
      | Exited out' c => Exited (out ++ out') c
      end
  | Exited out c => Exited out c
  end.

Definition console_log (args : list string) : proc unit :=
  Running [ConsoleLog args] tt.
Definition console_error (args : list string) : proc unit :=
  Running [ConsoleError args] tt.
Definition process_exit {A} (code : Z) : proc A := Exited [] code.

Declare Scope proc_scope.
Delimit Scope proc_scope with proc.
Notation "x <- m ;; k" := (proc_bind m (fun x => k))
  (at level 100, m at next level, right associativity) : proc_scope.
Notation "m ;; k" := (proc_bind m (fun _ => k))
  (at level 100, right associativity) : proc_scope.

(** ** String primitives used by the script *)

(** [s.startsWith(p)] *)
Fixpoint startsWith (s p : string) {struct p} : bool :=
  match p, s with
  | EmptyString, _ => true
  | String _ _, EmptyString => false
  | String b p', String a s' => Ascii.eqb a b && startsWith s' p'
  end.

(** [s.split(sep)] for a one-character separator: never the empty list. *)
Fixpoint split (sep : ascii) (s : string) : list string :=
  match s with
  | EmptyString => [EmptyString]
  | String c rest =>
      if Ascii.eqb c sep then EmptyString :: split sep rest
      else match split sep rest with
           | [] => [String c EmptyString]
           | hd :: tl => String c hd :: tl
           end
  end.

(** [xs[i]]: out of range, JavaScript answers [undefined] ([None]). *)
Definition js_index {A} (xs : list A) (i : nat) : option A := nth_error xs i.

(** The double-quote character, for the texts that contain it. *)
Definition dq : string := String (ascii_of_nat 34) EmptyString.

(** ** The options structure *)

Record DocxOptions : Type := mkDocxOptions {
  inWrapper : bool;
  hideWrapperOnPrint : bool;
  ignoreWidth : bool;
  ignoreHeight : bool;
  ignoreFonts : bool;
  breakPages : bool;
  debug : bool;
  experimental : bool;
  className : option string;   (* [None] is JavaScript's [undefined] *)
  trimXmlDeclaration : bool;
  ignoreLastRenderedPageBreak : bool;
  renderHeaders : bool;
  renderFooters : bool;
  renderFootnotes : bool;
  renderEndnotes : bool;
  useBase64URL : bool;
  renderChanges : bool;
  renderComments : bool;
  renderAltChunks : bool
}.

Record Options : Type := mkOptions {
  input : option string;       (* [None] is JavaScript's [null] *)
  output : option string;
  bodyOnly : bool;
  docxOptions : DocxOptions
}.

(** Assignments [options.docxOptions.f = v], one per field of the literal. *)
Definition set_inWrapper (v : bool) (d : DocxOptions) : DocxOptions :=
  {| inWrapper := v; hideWrapperOnPrint := hideWrapperOnPrint d;
     ignoreWidth := ignoreWidth d; ignoreHeight := ignoreHeight d;
     ignoreFonts := ignoreFonts d; breakPages := breakPages d;
     debug := debug d; experimental := experimental d;
     className := className d; trimXmlDeclaration := trimXmlDeclaration d;
     ignoreLastRenderedPageBreak := ignoreLastRenderedPageBreak d;
     renderHeaders := renderHeaders d; renderFooters := renderFooters d;
     renderFootnotes := renderFootnotes d;
     renderEndnotes := renderEndnotes d; useBase64URL := useBase64URL d;
     renderChanges := renderChanges d; renderComments := renderComments d;
     renderAltChunks := renderAltChunks d |}.

Definition set_hideWrapperOnPrint (v : bool) (d : DocxOptions) : DocxOptions :=
  {| inWrapper := inWrapper d; hideWrapperOnPrint := v;
     ignoreWidth := ignoreWidth d; ignoreHeight := ignoreHeight d;
     ignoreFonts := ignoreFonts d; breakPages := breakPages d;
     debug := debug d; experimental := experimental d;
     className := className d; trimXmlDeclaration := trimXmlDeclaration d;
     ignoreLastRenderedPageBreak := ignoreLastRenderedPageBreak d;
     renderHeaders := renderHeaders d; renderFooters := renderFooters d;
     renderFootnotes := renderFootnotes d;
     renderEndnotes := renderEndnotes d; useBase64URL := useBase64URL d;
     renderChanges := renderChanges d; renderComments := renderComments d;
     renderAltChunks := renderAltChunks d |}.

Definition set_ignoreWidth (v : bool) (d : DocxOptions) : DocxOptions :=
  {| inWrapper := inWrapper d; hideWrapperOnPrint := hideWrapperOnPrint d;
     ignoreWidth := v; ignoreHeight := ignoreHeight d;
     ignoreFonts := ignoreFonts d; breakPages := breakPages d;
     debug := debug d; experimental := experimental d;
     className := className d; trimXmlDeclaration := trimXmlDeclaration d;
     ignoreLastRenderedPageBreak := ignoreLastRenderedPageBreak d;
     renderHeaders := renderHeaders d; renderFooters := renderFooters d;
     renderFootnotes := renderFootnotes d;
     renderEndnotes := renderEndnotes d; useBase64URL := useBase64URL d;
     renderChanges := renderChanges d; renderComments := renderComments d;
     renderAltChunks := renderAltChunks d |}.

Definition set_ignoreHeight (v : bool) (d : DocxOptions) : DocxOptions :=
  {| inWrapper := inWrapper d; hideWrapperOnPrint := hideWrapperOnPrint d;
     ignoreWidth := ignoreWidth d; ignoreHeight := v;
     ignoreFonts := ignoreFonts d; breakPages := breakPages d;
     debug := debug d; experimental := experimental d;
     className := className d; trimXmlDeclaration := trimXmlDeclaration d;
     ignoreLastRenderedPageBreak := ignoreLastRenderedPageBreak d;
     renderHeaders := renderHeaders d; renderFooters := renderFooters d;
     renderFootnotes := renderFootnotes d;
     renderEndnotes := renderEndnotes d; useBase64URL := useBase64URL d;
     renderChanges := renderChanges d; renderComments := renderComments d;
     renderAltChunks := renderAltChunks d |}.

Definition set_ignoreFonts (v : bool) (d : DocxOptions) : DocxOptions :=
  {| inWrapper := inWrapper d; hideWrapperOnPrint := hideWrapperOnPrint d;
     ignoreWidth := ignoreWidth d; ignoreHeight := ignoreHeight d;
     ignoreFonts := v; breakPages := breakPages d; debug := debug d;
     experimental := experimental d; className := className d;
     trimXmlDeclaration := trimXmlDeclaration d;
     ignoreLastRenderedPageBreak := ignoreLastRenderedPageBreak d;
     renderHeaders := renderHeaders d; renderFooters := renderFooters d;
     renderFootnotes := renderFootnotes d;
     renderEndnotes := renderEndnotes d; useBase64URL := useBase64URL d;
     renderChanges := renderChanges d; renderComments := renderComments d;
     renderAltChunks := renderAltChunks d |}.

Definition set_breakPages (v : bool) (d : DocxOptions) : DocxOptions :=
  {| inWrapper := inWrapper d; hideWrapperOnPrint := hideWrapperOnPrint d;
     ignoreWidth := ignoreWidth d; ignoreHeight := ignoreHeight d;
     ignoreFonts := ignoreFonts d; breakPages := v; debug := debug d;
     experimental := experimental d; className := className d;
     trimXmlDeclaration := trimXmlDeclaration d;
     ignoreLastRenderedPageBreak := ignoreLastRenderedPageBreak d;
     renderHeaders := renderHeaders d; renderFooters := renderFooters d;
     renderFootnotes := renderFootnotes d;
     renderEndnotes := renderEndnotes d; useBase64URL := useBase64URL d;
     renderChanges := renderChanges d; renderComments := renderComments d;
     renderAltChunks := renderAltChunks d |}.

Definition set_debug (v : bool) (d : DocxOptions) : DocxOptions :=
  {| inWrapper := inWrapper d; hideWrapperOnPrint := hideWrapperOnPrint d;
     ignoreWidth := ignoreWidth d; ignoreHeight := ignoreHeight d;
     ignoreFonts := ignoreFonts d; breakPages := breakPages d; debug := v;
     experimental := experimental d; className := className d;
     trimXmlDeclaration := trimXmlDeclaration d;
     ignoreLastRenderedPageBreak := ignoreLastRenderedPageBreak d;
     renderHeaders := renderHeaders d; renderFooters := renderFooters d;
     renderFootnotes := renderFootnotes d;
     renderEndnotes := renderEndnotes d; useBase64URL := useBase64URL d;
     renderChanges := renderChanges d; renderComments := renderComments d;
     renderAltChunks := renderAltChunks d |}.

Definition set_experimental (v : bool) (d : DocxOptions) : DocxOptions :=
  {| inWrapper := inWrapper d; hideWrapperOnPrint := hideWrapperOnPrint d;
     ignoreWidth := ignoreWidth d; ignoreHeight := ignoreHeight d;
     ignoreFonts := ignoreFonts d; breakPages := breakPages d;
     debug := debug d; experimental := v; className := className d;
     trimXmlDeclaration := trimXmlDeclaration d;
     ignoreLastRenderedPageBreak := ignoreLastRenderedPageBreak d;
     renderHeaders := renderHeaders d; renderFooters := renderFooters d;
     renderFootnotes := renderFootnotes d;
     renderEndnotes := renderEndnotes d; useBase64URL := useBase64URL d;
     renderChanges := renderChanges d; renderComments := renderComments d;
     renderAltChunks := renderAltChunks d |}.

Definition set_className (v : option string) (d : DocxOptions) : DocxOptions :=
  {| inWrapper := inWrapper d; hideWrapperOnPrint := hideWrapperOnPrint d;
     ignoreWidth := ignoreWidth d; ignoreHeight := ignoreHeight d;
     ignoreFonts := ignoreFonts d; breakPages := breakPages d;
     debug := debug d; experimental := experimental d; className := v;
     trimXmlDeclaration := trimXmlDeclaration d;
     ignoreLastRenderedPageBreak := ignoreLastRenderedPageBreak d;
     renderHeaders := renderHeaders d; renderFooters := renderFooters d;
     renderFootnotes := renderFootnotes d;
     renderEndnotes := renderEndnotes d; useBase64URL := useBase64URL d;
     renderChanges := renderChanges d; renderComments := renderComments d;
     renderAltChunks := renderAltChunks d |}.

Definition set_trimXmlDeclaration (v : bool) (d : DocxOptions) : DocxOptions :=
  {| inWrapper := inWrapper d; hideWrapperOnPrint := hideWrapperOnPrint d;
     ignoreWidth := ignoreWidth d; ignoreHeight := ignoreHeight d;
     ignoreFonts := ignoreFonts d; breakPages := breakPages d;
     debug := debug d; experimental := experimental d;
     className := className d; trimXmlDeclaration := v;
     ignoreLastRenderedPageBreak := ignoreLastRenderedPageBreak d;
     renderHeaders := renderHeaders d; renderFooters := renderFooters d;
     renderFootnotes := renderFootnotes d;
     renderEndnotes := renderEndnotes d; useBase64URL := useBase64URL d;
     renderChanges := renderChanges d; renderComments := renderComments d;
     renderAltChunks := renderAltChunks d |}.

Definition set_ignoreLastRenderedPageBreak (v : bool) (d : DocxOptions) : DocxOptions :=
  {| inWrapper := inWrapper d; hideWrapperOnPrint := hideWrapperOnPrint d;
     ignoreWidth := ignoreWidth d; ignoreHeight := ignoreHeight d;
     ignoreFonts := ignoreFonts d; breakPages := breakPages d;
     debug := debug d; experimental := experimental d;
     className := className d; trimXmlDeclaration := trimXmlDeclaration d;
     ignoreLastRenderedPageBreak := v; renderHeaders := renderHeaders d;
     renderFooters := renderFooters d;
     renderFootnotes := renderFootnotes d;
     renderEndnotes := renderEndnotes d; useBase64URL := useBase64URL d;
     renderChanges := renderChanges d; renderComments := renderComments d;
     renderAltChunks := renderAltChunks d |}.

Definition set_renderHeaders (v : bool) (d : DocxOptions) : DocxOptions :=
  {| inWrapper := inWrapper d; hideWrapperOnPrint := hideWrapperOnPrint d;
     ignoreWidth := ignoreWidth d; ignoreHeight := ignoreHeight d;
     ignoreFonts := ignoreFonts d; breakPages := breakPages d;
     debug := debug d; experimental := experimental d;
     className := className d; trimXmlDeclaration := trimXmlDeclaration d;
     ignoreLastRenderedPageBreak := ignoreLastRenderedPageBreak d;
     renderHeaders := v; renderFooters := renderFooters d;
     renderFootnotes := renderFootnotes d;
     renderEndnotes := renderEndnotes d; useBase64URL := useBase64URL d;
     renderChanges := renderChanges d; renderComments := renderComments d;
     renderAltChunks := renderAltChunks d |}.

Definition set_renderFooters (v : bool) (d : DocxOptions) : DocxOptions :=
  {| inWrapper := inWrapper d; hideWrapperOnPrint := hideWrapperOnPrint d;
     ignoreWidth := ignoreWidth d; ignoreHeight := ignoreHeight d;
     ignoreFonts := ignoreFonts d; breakPages := breakPages d;
     debug := debug d; experimental := experimental d;
     className := className d; trimXmlDeclaration := trimXmlDeclaration d;
     ignoreLastRenderedPageBreak := ignoreLastRenderedPageBreak d;
     renderHeaders := renderHeaders d; renderFooters := v;
     renderFootnotes := renderFootnotes d;
     renderEndnotes := renderEndnotes d; useBase64URL := useBase64URL d;
     renderChanges := renderChanges d; renderComments := renderComments d;
     renderAltChunks := renderAltChunks d |}.

Definition set_renderFootnotes (v : bool) (d : DocxOptions) : DocxOptions :=
  {| inWrapper := inWrapper d; hideWrapperOnPrint := hideWrapperOnPrint d;
     ignoreWidth := ignoreWidth d; ignoreHeight := ignoreHeight d;
     ignoreFonts := ignoreFonts d; breakPages := breakPages d;
     debug := debug d; experimental := experimental d;
     className := className d; trimXmlDeclaration := trimXmlDeclaration d;
     ignoreLastRenderedPageBreak := ignoreLastRenderedPageBreak d;
     renderHeaders := renderHeaders d; renderFooters := renderFooters d;
     renderFootnotes := v; renderEndnotes := renderEndnotes d;
     useBase64URL := useBase64URL d; renderChanges := renderChanges d;
     renderComments := renderComments d;
     renderAltChunks := renderAltChunks d |}.

Definition set_renderEndnotes (v : bool) (d : DocxOptions) : DocxOptions :=
  {| inWrapper := inWrapper d; hideWrapperOnPrint := hideWrapperOnPrint d;
     ignoreWidth := ignoreWidth d; ignoreHeight := ignoreHeight d;
     ignoreFonts := ignoreFonts d; breakPages := breakPages d;
     debug := debug d; experimental := experimental d;
     className := className d; trimXmlDeclaration := trimXmlDeclaration d;
     ignoreLastRenderedPageBreak := ignoreLastRenderedPageBreak d;
     renderHeaders := renderHeaders d; renderFooters := renderFooters d;
     renderFootnotes := renderFootnotes d; renderEndnotes := v;
     useBase64URL := useBase64URL d; renderChanges := renderChanges d;
     renderComments := renderComments d;
     renderAltChunks := renderAltChunks d |}.

Definition set_useBase64URL (v : bool) (d : DocxOptions) : DocxOptions :=
  {| inWrapper := inWrapper d; hideWrapperOnPrint := hideWrapperOnPrint d;
     ignoreWidth := ignoreWidth d; ignoreHeight := ignoreHeight d;
     ignoreFonts := ignoreFonts d; breakPages := breakPages d;
     debug := debug d; experimental := experimental d;
     className := className d; trimXmlDeclaration := trimXmlDeclaration d;
     ignoreLastRenderedPageBreak := ignoreLastRenderedPageBreak d;
     renderHeaders := renderHeaders d; renderFooters := renderFooters d;
     renderFootnotes := renderFootnotes d;
     renderEndnotes := renderEndnotes d; useBase64URL := v;
     renderChanges := renderChanges d; renderComments := renderComments d;
     renderAltChunks := renderAltChunks d |}.

Definition set_renderChanges (v : bool) (d : DocxOptions) : DocxOptions :=
  {| inWrapper := inWrapper d; hideWrapperOnPrint := hideWrapperOnPrint d;
     ignoreWidth := ignoreWidth d; ignoreHeight := ignoreHeight d;
     ignoreFonts := ignoreFonts d; breakPages := breakPages d;
     debug := debug d; experimental := experimental d;
     className := className d; trimXmlDeclaration := trimXmlDeclaration d;
     ignoreLastRenderedPageBreak := ignoreLastRenderedPageBreak d;
     renderHeaders := renderHeaders d; renderFooters := renderFooters d;
     renderFootnotes := renderFootnotes d;
     renderEndnotes := renderEndnotes d; useBase64URL := useBase64URL d;
     renderChanges := v; renderComments := renderComments d;
     renderAltChunks := renderAltChunks d |}.

Definition set_renderComments (v : bool) (d : DocxOptions) : DocxOptions :=
  {| inWrapper := inWrapper d; hideWrapperOnPrint := hideWrapperOnPrint d;
     ignoreWidth := ignoreWidth d; ignoreHeight := ignoreHeight d;
     ignoreFonts := ignoreFonts d; breakPages := breakPages d;
     debug := debug d; experimental := experimental d;
     className := className d; trimXmlDeclaration := trimXmlDeclaration d;
     ignoreLastRenderedPageBreak := ignoreLastRenderedPageBreak d;
     renderHeaders := renderHeaders d; renderFooters := renderFooters d;
     renderFootnotes := renderFootnotes d;
     renderEndnotes := renderEndnotes d; useBase64URL := useBase64URL d;
     renderChanges := renderChanges d; renderComments := v;
     renderAltChunks := renderAltChunks d |}.

Definition set_renderAltChunks (v : bool) (d : DocxOptions) : DocxOptions :=
  {| inWrapper := inWrapper d; hideWrapperOnPrint := hideWrapperOnPrint d;
     ignoreWidth := ignoreWidth d; ignoreHeight := ignoreHeight d;
     ignoreFonts := ignoreFonts d; breakPages := breakPages d;
     debug := debug d; experimental := experimental d;
     className := className d; trimXmlDeclaration := trimXmlDeclaration d;
     ignoreLastRenderedPageBreak := ignoreLastRenderedPageBreak d;
     renderHeaders := renderHeaders d; renderFooters := renderFooters d;
     renderFootnotes := renderFootnotes d;
     renderEndnotes := renderEndnotes d; useBase64URL := useBase64URL d;
     renderChanges := renderChanges d; renderComments := renderComments d;
     renderAltChunks := v |}.

(** Assignments to the outer object; [with_docx f] stands for an
    assignment through [options.docxOptions]. *)
Definition set_input (v : option string) (o : Options) : Options :=
  {| input := v; output := output o; bodyOnly := bodyOnly o;
     docxOptions := docxOptions o |}.

Definition set_output (v : option string) (o : Options) : Options :=
  {| input := input o; output := v; bodyOnly := bodyOnly o;
     docxOptions := docxOptions o |}.

Definition set_bodyOnly (v : bool) (o : Options) : Options :=
  {| input := input o; output := output o; bodyOnly := v;
     docxOptions := docxOptions o |}.

Definition with_docx (f : DocxOptions -> DocxOptions) (o : Options) : Options :=
  {| input := input o; output := output o; bodyOnly := bodyOnly o;
     docxOptions := f (docxOptions o) |}.

(** ** [printHelp] *)

Definition help_text : string :=
"
DOCX to HTML Converter

Usage: node scripts/docx-to-html.mjs <input.docx> [output.html] [options]

Arguments:
  input.docx              Input DOCX file (required)
  output.html             Output HTML file (default: input with .html extension)

Layout Options:
  --no-wrapper            Don't wrap content in container div
  --hide-wrapper-print    Hide wrapper when printing
  --ignore-width          Ignore page width (fluid layout)
  --ignore-height         Ignore page height
  --no-break-pages        Don't break on page breaks
  --render-page-breaks    Respect lastRenderedPageBreak elements

Content Options:
  --no-headers            Don't render headers
  --no-footers            Don't render footers
  --no-footnotes          Don't render footnotes
  --no-endnotes           Don't render endnotes
  --no-alt-chunks         Don't render embedded HTML parts
  --render-changes        Show tracked changes (insertions/deletions)
  --render-comments       Show comments (experimental)

Style Options:
  --ignore-fonts          Don't render embedded fonts
  --class-name=NAME       CSS class prefix (default: " +:+ dq +:+ "docx" +:+ dq +:+ ")

Output Options:
  --body-only             Output only body content (no <html> wrapper)
  --base64                Use base64 URLs for images

Debug Options:
  --debug                 Enable debug logging
  --experimental          Enable experimental features (tab stops)
  --no-trim-xml           Keep XML declaration in output

Other:
  --help, -h              Show this help

Examples:
  # Basic conversion
  node scripts/docx-to-html.mjs document.docx

  # Fluid width, no page breaks
  node scripts/docx-to-html.mjs doc.docx out.html --ignore-width --no-break-pages

  # Show tracked changes
  node scripts/docx-to-html.mjs doc.docx --render-changes

  # Minimal output (no headers/footers, body only)
  node scripts/docx-to-html.mjs doc.docx --no-headers --no-footers --body-only
".

Definition printHelp : proc unit := console_log [help_text].

(** ** [parseArgs] *)

(** The literal [parseArgs] starts from: built afresh by every call. *)
Definition initial_docxOptions : DocxOptions :=
  {| inWrapper := true;
     hideWrapperOnPrint := false;
     ignoreWidth := false;
     ignoreHeight := false;
     ignoreFonts := false;
     breakPages := true;
     debug := false;
     experimental := false;
     className := Some "docx";
     trimXmlDeclaration := true;
     ignoreLastRenderedPageBreak := true;
     renderHeaders := true;
     renderFooters := true;
     renderFootnotes := true;
     renderEndnotes := true;
     useBase64URL := true;
     renderChanges := false;
     renderComments := false;
     renderAltChunks := true |}.

Definition initial_options : Options :=
  {| input := None; output := None; bodyOnly := false;
     docxOptions := initial_docxOptions |}.

(** JavaScript truthiness of a value that is [null] or a string:
    [null] and the empty string are falsy. *)
Definition truthy (v : option string) : bool :=
  match v with
  | None => false
  | Some s => negb (String.eqb s "")
  end.

(** The body of the [for (const arg of args)] loop: one [if]/[else if]
    chain, tried in the order of the script. *)
Definition parseArg (options : Options) (arg : string) : proc Options :=
  (if String.eqb arg "--help" || String.eqb arg "-h" then
     printHelp ;; process_exit 0
   else if String.eqb arg "--no-wrapper" then
     proc_ret (with_docx (set_inWrapper false) options)
   else if String.eqb arg "--hide-wrapper-print" then
     proc_ret (with_docx (set_hideWrapperOnPrint true) options)
   else if String.eqb arg "--ignore-width" then
     proc_ret (with_docx (set_ignoreWidth true) options)
   else if String.eqb arg "--ignore-height" then
     proc_ret (with_docx (set_ignoreHeight true) options)
   else if String.eqb arg "--ignore-fonts" then
     proc_ret (with_docx (set_ignoreFonts true) options)
   else if String.eqb arg "--no-break-pages" then
     proc_ret (with_docx (set_breakPages false) options)
   else if String.eqb arg "--debug" then
     proc_ret (with_docx (set_debug true) options)
   else if String.eqb arg "--experimental" then
     proc_ret (with_docx (set_experimental true) options)
   else if startsWith arg "--class-name=" then
     proc_ret (with_docx (set_className (js_index (split "=" arg) 1)) options)
   else if String.eqb arg "--no-trim-xml" then
     proc_ret (with_docx (set_trimXmlDeclaration false) options)
   else if String.eqb arg "--render-page-breaks" then
     proc_ret (with_docx (set_ignoreLastRenderedPageBreak false) options)
   else if String.eqb arg "--base64" then
     proc_ret (with_docx (set_useBase64URL true) options)
   else if String.eqb arg "--render-changes" then
     proc_ret (with_docx (set_renderChanges true) options)
   else if String.eqb arg "--render-comments" then
     proc_ret (with_docx (set_renderComments true) options)
   else if String.eqb arg "--no-alt-chunks" then
     proc_ret (with_docx (set_renderAltChunks false) options)
   else if String.eqb arg "--no-headers" then
     proc_ret (with_docx (set_renderHeaders false) options)
   else if String.eqb arg "--no-footers" then
     proc_ret (with_docx (set_renderFooters false) options)
   else if String.eqb arg "--no-footnotes" then
     proc_ret (with_docx (set_renderFootnotes false) options)
   else if String.eqb arg "--no-endnotes" then
     proc_ret (with_docx (set_renderEndnotes false) options)
   else if String.eqb arg "--body-only" then
     proc_ret (set_bodyOnly true options)
   else if negb (startsWith arg "-") then
     if negb (truthy (input options)) then
       proc_ret (set_input (Some arg) options)
     else if negb (truthy (output options)) then
       proc_ret (set_output (Some arg) options)
     else
       proc_ret options
   else
     console_error ["Unknown option: " +:+ arg] ;; process_exit 1)%proc.

(** The loop itself, threading the (mutated) [options] object. *)
Fixpoint parseArgs_loop (args : list string) (options : Options) : proc Options :=
  match args with
  | [] => proc_ret options
  | arg :: rest => (options' <- parseArg options arg ;; parseArgs_loop rest options')%proc
  end.

Definition parseArgs (args : list string) : proc Options :=
  parseArgs_loop args initial_options.

(** ** The default output path: [input.replace(/\.docx$/i, '.html')] *)

(** Canonicalisation of a character under the [i] flag: ASCII lower-case
    letters fold to upper case, every other code unit is left alone. *)
Definition canonicalize (c : ascii) : ascii :=
  let n := nat_of_ascii c in
  if (97 <=? n)%nat && (n <=? 122)%nat then ascii_of_nat (n - 32) else c.

(** Does the whole of [s] match the literal characters [pat], ignoring
    case?  With the [$] anchor this is the test made at each position. *)
Fixpoint matches_to_end (pat s : string) : bool :=
  match pat, s with
  | EmptyString, EmptyString => true
  | String p pat', String c s' =>
      Ascii.eqb (canonicalize c) (canonicalize p) && matches_to_end pat' s'
  | _, _ => false
  end.

(** [s.replace(/<pat>$/i, rep)]: the leftmost position at which the
    pattern matches is replaced; without a match [s] is returned. *)
Fixpoint replace_at_end (pat rep s : string) : string :=
  if matches_to_end pat s then rep
  else match s with
       | EmptyString => EmptyString
       | String c s' => String c (replace_at_end pat rep s')
       end.

Definition default_output (inputPath : string) : string :=
  replace_at_end ".docx" ".html" inputPath.

(** ** [convertDocxToHtml] and the main block *)

Record js_error : Type := mkError { message : string; stack : string }.

(** How a promise settles. *)
Inductive settled (A : Type) : Type :=
  | Resolved (a : A)
  | Rejected (err : js_error).
Arguments Resolved {A} a.
Arguments Rejected {A} err.

(** An asynchronous routine over the file system: console output, the
    file system afterwards, and how its promise settles.  A [throw]
    inside an [async] function rejects its promise. *)
Definition task (A : Type) : Type :=
  gmap string string -> list console_call * gmap string string * settled A.

Definition task_ret {A} (a : A) : task A := fun fs => ([], fs, Resolved a).

Definition task_bind {A B} (m : task A) (k : A -> task B) : task B :=
  fun fs =>
    match m fs with
    | (out, fs', Resolved a) =>
        match k a fs' with
        | (out', fs'', r) => ((out ++ out')%list, fs'', r)
        end
    | (out, fs', Rejected err) => (out, fs', Rejected err)
    end.

Definition task_log (args : list string) : task unit :=
  fun fs => ([ConsoleLog args], fs, Resolved tt).

Definition task_when (b : bool) (m : task unit) : task unit :=
  if b then m else task_ret tt.

Declare Scope task_scope.
Delimit Scope task_scope with task.
Notation "x <- m ;; k" := (task_bind m (fun x => k))
  (at level 100, m at next level, right associativity) : task_scope.
Notation "m ;; k" := (task_bind m (fun _ => k))
  (at level 100, right associativity) : task_scope.

Section Conversion.

(** What the script imports: the renderer of [docx-preview], which
    fills the two containers or rejects; [JSON.stringify]; [basename] of
    node's [path]; and the errors node's [fs] raises. *)
Variable renderAsync : string -> DocxOptions -> settled (string * string).
Variable JSON_stringify : DocxOptions -> string.
Variable basename : string -> string -> string.
Variable read_error : string -> js_error.
Variable write_error : string -> option js_error.

(** [readFileSync(path)]: throws when there is no such file. *)
Definition readFileSync (path : string) : task string :=
  fun fs =>
    match fs !! path with
    | Some data => ([], fs, Resolved data)
    | None => ([], fs, Rejected (read_error path))
    end.

(** [writeFileSync(path, data, 'utf8')]: replaces the contents of
    [path], or throws when the path cannot be written. *)
Definition writeFileSync (path data : string) : task unit :=
  fun fs =>
    match write_error path with
    | Some err => ([], fs, Rejected err)
    | None => ([], <[path := data]> fs, Resolved tt)
    end.

(** [await docxPreview.renderAsync(docxBuffer, container,
    styleContainer, options.docxOptions)], then the [innerHTML] of
    [styleContainer] and of [container]. *)
Definition await_renderAsync (docxBuffer : string) (d : DocxOptions)
  : task (string * string) :=
  fun fs => ([], fs, renderAsync docxBuffer d).

Definition html_document (inputPath styleHTML containerHTML : string) : string :=
  "<!DOCTYPE html>
<html lang=" +:+ dq +:+ "en" +:+ dq +:+ ">
<head>
  <meta charset=" +:+ dq +:+ "UTF-8" +:+ dq +:+ ">
  <meta name=" +:+ dq +:+ "viewport" +:+ dq +:+ " content=" +:+ dq +:+
  "width=device-width, initial-scale=1.0" +:+ dq +:+ ">
  <title>" +:+ basename inputPath ".docx" +:+ "</title>
  <style>
    body { margin: 0; padding: 20px; background: #f0f0f0; }
  </style>
  " +:+ styleHTML +:+ "
</head>
<body>
  " +:+ containerHTML +:+ "
</body>
</html>".

Definition newline : string := String (ascii_of_nat 10) EmptyString.

Definition assemble_html (inputPath : string) (options : Options)
    (rendered : string * string) : string :=
  let '(styleHTML, containerHTML) := rendered in
  if bodyOnly options then styleHTML +:+ newline +:+ containerHTML
  else html_document inputPath styleHTML containerHTML.

Definition convertDocxToHtml (inputPath outputPath : string)
    (options : Options) : task unit :=
  (task_when (debug (docxOptions options))
     (task_log ["Options:"; JSON_stringify (docxOptions options)]) ;;
   task_log ["Reading: " +:+ inputPath] ;;
   docxBuffer <- readFileSync inputPath ;;
   task_log ["Converting..."] ;;
   rendered <- await_renderAsync docxBuffer (docxOptions options) ;;
   let html := assemble_html inputPath options rendered in
   writeFileSync outputPath html ;;
   task_log ["Output: " +:+ outputPath] ;;
   task_log ["Done!"])%task.

(** The handler given to [.catch]. *)
Definition on_rejected (options : Options) (err : js_error) : proc unit :=
  (console_error ["Error:"; message err] ;;
   (if debug (docxOptions options) then console_error [stack err]
    else proc_ret tt) ;;
   process_exit 1)%proc.

Definition no_input_file : proc unit :=
  (console_error ["Error: No input file specified"] ;;
   console_log ["Usage: node scripts/docx-to-html.mjs <input.docx> [output.html] [options]"] ;;
   console_log ["Use --help for more information"] ;;
   process_exit 1)%proc.

(** The output path after [if (!options.output) options.output = ...]. *)
Definition resolve_output (inputPath : string) (options : Options) : string :=
  match output options with
  | Some p => if String.eqb p "" then default_output inputPath else p
  | None => default_output inputPath
  end.

(** The block under [// Main], run on [process.argv.slice(2)] and a file
    system: the file system it leaves and the console output with the
    way the process ends ([Running]: the script ran to its end without
    calling [process.exit]). *)
Definition main (args : list string) (fs : gmap string string)
  : gmap string string * proc unit :=
  match parseArgs args with
  | Exited out code => (fs, Exited out code)
  | Running out options =>
      match input options with
      | None => (fs, proc_bind (Running out tt) (fun _ => no_input_file))
      | Some inputPath =>
          if String.eqb inputPath "" then
            (fs, proc_bind (Running out tt) (fun _ => no_input_file))
          else
            let outputPath := resolve_output inputPath options in
            let options := set_output (Some outputPath) options in
            match convertDocxToHtml inputPath outputPath options fs with
            | (out', fs', Resolved _) => (fs', Running (out ++ out')%list tt)
            | (out', fs', Rejected err) =>
                (fs', proc_bind (Running (out ++ out')%list tt)
                        (fun _ => on_rejected options err))
            end
      end
  end.

End Conversion.

(** ** Reading the returned structure field by field *)

Inductive field : Type :=
  | F_input | F_output | F_bodyOnly
  | F_inWrapper | F_hideWrapperOnPrint | F_ignoreWidth | F_ignoreHeight
  | F_ignoreFonts | F_breakPages | F_debug | F_experimental | F_className
  | F_trimXmlDeclaration | F_ignoreLastRenderedPageBreak | F_renderHeaders
  | F_renderFooters | F_renderFootnotes | F_renderEndnotes | F_useBase64URL
  | F_renderChanges | F_renderComments | F_renderAltChunks.

Definition js_of_path (v : option string) : js_value :=
  match v with None => JNull | Some s => JString s end.

Definition js_of_name (v : option string) : js_value :=
  match v with None => JUndefined | Some s => JString s end.

(** The property read [options.f], respectively [options.docxOptions.f]. *)
Definition get_field (f : field) (o : Options) : js_value :=
  let d := docxOptions o in
  match f with
  | F_input => js_of_path (input o)
  | F_output => js_of_path (output o)
  | F_bodyOnly => JBool (bodyOnly o)
  | F_inWrapper => JBool (inWrapper d)
  | F_hideWrapperOnPrint => JBool (hideWrapperOnPrint d)
  | F_ignoreWidth => JBool (ignoreWidth d)
  | F_ignoreHeight => JBool (ignoreHeight d)
  | F_ignoreFonts => JBool (ignoreFonts d)
  | F_breakPages => JBool (breakPages d)
  | F_debug => JBool (debug d)
  | F_experimental => JBool (experimental d)
  | F_className => js_of_name (className d)
  | F_trimXmlDeclaration => JBool (trimXmlDeclaration d)
  | F_ignoreLastRenderedPageBreak => JBool (ignoreLastRenderedPageBreak d)
  | F_renderHeaders => JBool (renderHeaders d)
  | F_renderFooters => JBool (renderFooters d)
  | F_renderFootnotes => JBool (renderFootnotes d)
  | F_renderEndnotes => JBool (renderEndnotes d)
  | F_useBase64URL => JBool (useBase64URL d)
  | F_renderChanges => JBool (renderChanges d)
  | F_renderComments => JBool (renderComments d)
  | F_renderAltChunks => JBool (renderAltChunks d)
  end.

(** The configuration fields of [docxOptions]. *)
Definition docx_fields : list field :=
  [F_inWrapper; F_hideWrapperOnPrint; F_ignoreWidth; F_ignoreHeight;
   F_ignoreFonts; F_breakPages; F_debug; F_experimental; F_className;
   F_trimXmlDeclaration; F_ignoreLastRenderedPageBreak; F_renderHeaders;
   F_renderFooters; F_renderFootnotes; F_renderEndnotes; F_useBase64URL;
   F_renderChanges; F_renderComments; F_renderAltChunks].

Definition is_defined (v : js_value) : bool :=
  match v with
  | JBool _ | JString _ => true
  | JNull | JUndefined => false
  end.

(** ** The documented option flags

    The table of the script's usage comment: each flag with the field it
    designates and the value it documents for it.  It is stated apart
    from [parseArg], to compare the two. *)
Definition flag_table : list (string * (field * js_value)) :=
  [ ("--no-wrapper",          (F_inWrapper, JBool false));
    ("--hide-wrapper-print",  (F_hideWrapperOnPrint, JBool true));
    ("--ignore-width",        (F_ignoreWidth, JBool true));
    ("--ignore-height",       (F_ignoreHeight, JBool true));
    ("--ignore-fonts",        (F_ignoreFonts, JBool true));
    ("--no-break-pages",      (F_breakPages, JBool false));
    ("--debug",               (F_debug, JBool true));
    ("--experimental",        (F_experimental, JBool true));
    ("--no-trim-xml",         (F_trimXmlDeclaration, JBool false));
    ("--render-page-breaks",  (F_ignoreLastRenderedPageBreak, JBool false));
    ("--base64",              (F_useBase64URL, JBool true));
    ("--render-changes",      (F_renderChanges, JBool true));
    ("--render-comments",     (F_renderComments, JBool true));
    ("--no-alt-chunks",       (F_renderAltChunks, JBool false));
    ("--no-headers",          (F_renderHeaders, JBool false));
    ("--no-footers",          (F_renderFooters, JBool false));
    ("--no-footnotes",        (F_renderFootnotes, JBool false));
    ("--no-endnotes",         (F_renderEndnotes, JBool false));
    ("--body-only",           (F_bodyOnly, JBool true)) ].

Fixpoint assoc {A} (key : string) (table : list (string * A)) : option A :=
  match table with
  | [] => None
  | (k, v) :: rest => if String.eqb key k then Some v else assoc key rest
  end.

(** What follows the first occurrence of [c] in [s]. *)
Fixpoint after_first (c : ascii) (s : string) : option string :=
  match s with
  | EmptyString => None
  | String a rest => if Ascii.eqb a c then Some rest else after_first c rest
  end.

(** What precedes the first occurrence of [c] in [s] (all of [s] when
    there is none). *)
Fixpoint up_to (c : ascii) (s : string) : string :=
  match s with
  | EmptyString => EmptyString
  | String a rest => if Ascii.eqb a c then EmptyString else String a (up_to c rest)
  end.

(** The segment of [arg] between its first and any second ['=']. *)
Definition name_segment (arg : string) : option string :=
  up_to "=" <$> after_first "=" arg.

(** The documented effect of one argument, if it is a recognized flag
    with a designated field. *)
Definition documented_effect (arg : string) : option (field * js_value) :=
  match assoc arg flag_table with
  | Some e => Some e
  | None =>
      if startsWith arg "--class-name="
      then (fun s => (F_className, JString s)) <$> name_segment arg
      else None
  end.

(** An argument that looks like an option but is none of the documented
    ones. *)
Definition unknown_option (arg : string) : Prop :=
  startsWith arg "-" = true /\
  documented_effect arg = None /\
  arg <> "--help" /\ arg <> "-h".

(** ** Paths that end in [.docx] *)

Definition lower (c : ascii) : ascii :=
  let n := nat_of_ascii c in
  if (65 <=? n)%nat && (n <=? 90)%nat then ascii_of_nat (n + 32) else c.

Fixpoint lowercase (s : string) : string :=
  match s with
  | EmptyString => EmptyString
  | String c rest => String (lower c) (lowercase rest)
  end.

(** [path] ends in [.docx], in whatever case. *)
Definition ends_in_docx (path : string) : Prop :=
  exists stem ext, path = stem +:+ ext /\ lowercase ext = ".docx".

(** [ends_in_docx] as a test. *)
Fixpoint has_docx_suffix (path : string) : bool :=
  String.eqb (lowercase path) ".docx" ||
  match path with
  | EmptyString => false
  | String _ rest => has_docx_suffix rest
  end.

Definition is_console_log (c : console_call) : Prop :=
  match c with ConsoleLog _ => True | ConsoleError _ => False end.


(** ** Style cascade resolution *)

Module Cascade.

(** Modelled from the spec: the element kinds that styles target. *)
Inductive element_kind : Type :=
  | Paragraph | Run | Table | TableRow | TableCell.

(** Modelled from the spec: a style definition of the style catalog
    (the renderer and its data model are not among the sources), with
    its target element kind, optional parent style identifier and
    property assignments. *)
Record StyleDef : Type := mkStyle {
  target : element_kind;
  basedOn : option string;
  styleProps : gmap string string
}.

(** Modelled from the spec: an element as far as the cascade reads it,
    with its kind, its optional named style, its (numbering id, level)
    reference and its direct formatting, a map from CSS property names
    to values. *)
Record Element : Type := mkElement {
  kind : element_kind;
  styleName : option string;
  numbering : option (string * nat);
  cssStyle : gmap string string
}.

(** Modelled from the spec: the walk up a named style's inheritance
    chain (the renderer's style processing is not among the sources).
    The chain is returned from the most specific style to the most
    distant ancestor; an identifier missing from the catalog ends it.
    A walk longer than [fuel] steps is reported as a cycle ([None]). *)
Fixpoint style_chain (fuel : nat) (catalog : gmap string StyleDef)
    (id : string) : option (list StyleDef) :=
  match fuel with
  | O => None
  | S fuel' =>
      match catalog !! id with
      | None => Some []
      | Some st =>
          match basedOn st with
          | None => Some [st]
          | Some parent => cons st <$> style_chain fuel' catalog parent
          end
      end
  end.

(** Modelled from the spec: cycle detection for the catalog's
    single-inheritance chains.  A walk that visits more styles than the
    catalog holds has visited one of them twice. *)
Definition resolve_chain (catalog : gmap string StyleDef) (id : string)
  : option (list StyleDef) :=
  style_chain (S (size catalog)) catalog id.

(** The identifiers of the catalog styles such a walk passes. *)
Fixpoint chain_ids (fuel : nat) (catalog : gmap string StyleDef)
    (id : string) : list string :=
  match fuel with
  | O => []
  | S fuel' =>
      match catalog !! id with
      | None => []
      | Some st =>
          id :: match basedOn st with
                | None => []
                | Some parent => chain_ids fuel' catalog parent
                end
      end
  end.

(** Modelled from the spec: the named style's properties, merged from
    the most distant ancestor to the most specific style, descendant
    properties winning on conflict ([∪] prefers its left operand). *)
Definition merge_chain (chain : list StyleDef) : gmap string string :=
  fold_left (fun acc st => styleProps st ∪ acc) (rev chain) ∅.

Definition named_style_props (catalog : gmap string StyleDef)
    (name : option string) : option (gmap string string) :=
  match name with
  | None => Some ∅
  | Some id => merge_chain <$> resolve_chain catalog id
  end.

(** Modelled from the spec: the properties of the numbering level an
    element refers to; an unresolved reference contributes nothing. *)
Definition numbering_props (numberings : gmap string (list (gmap string string)))
    (ref : option (string * nat)) : gmap string string :=
  match ref with
  | None => ∅
  | Some (id, level) =>
      match numberings !! id with
      | None => ∅
      | Some levels => default ∅ (levels !! level)
      end
  end.

(** Modelled from the spec: the effective style of an element, the
    merge of (1) the document defaults for its kind, (2) its named
    style resolved along the inheritance chain, then the numbering-level
    properties, and (3) its direct formatting, each layer winning over
    the ones before it.  [None] when the style chain has a cycle. *)
Definition effective_style
    (defaults : element_kind -> gmap string string)
    (catalog : gmap string StyleDef)
    (numberings : gmap string (list (gmap string string)))
    (e : Element) : option (gmap string string) :=
  match named_style_props catalog (styleName e) with
  | None => None
  | Some named =>
      Some (cssStyle e ∪
            (numbering_props numberings (numbering e) ∪
             (named ∪ defaults (kind e))))
  end.

End Cascade.

(** ** A sample environment

    Stand-ins for the imported functions and a small disk, used to run
    the script's model on concrete command lines. *)

Module Sample.

Definition bad_zip : js_error :=
  {| message := "Can't find end of central directory : is this a zip file ?";
     stack := "Error: Can't find end of central directory : is this a zip file ?
    at ZipEntries.readEndOfCentral" |}.

(** A renderer that accepts what starts like a zip archive. *)
Definition renderAsync (docxBuffer : string) (d : DocxOptions)
  : settled (string * string) :=
  if startsWith docxBuffer "PK"
  then Resolved ("<style>.docx { color: black }</style>",
                 "<section><p>Hello</p></section>")
  else Rejected bad_zip.

Definition JSON_stringify (d : DocxOptions) : string :=
  if debug d then "{ debug: true }" else "{ debug: false }".

Definition basename (path ext : string) : string := path.

Definition read_error (path : string) : js_error :=
  {| message := "ENOENT: no such file or directory, open '" +:+ path +:+ "'";
     stack := "Error: ENOENT" |}.

Definition write_error (path : string) : option js_error := None.

Definition disk : gmap string string :=
  {[ "memo.docx" := "PK-memo";
     "notes" := "PK-notes";
     "broken.docx" := "plain text";
     "out.html" := "<p>old</p>" ]}.

Definition convert :=
  convertDocxToHtml renderAsync JSON_stringify basename read_error write_error.

Definition run (args : list string) (fs : gmap string string) :=
  main renderAsync JSON_stringify basename read_error write_error args fs.

(** The named styles of a small document. *)
Definition styles : gmap string Cascade.StyleDef :=
  {[ "Normal" := Cascade.mkStyle Cascade.Paragraph None
                   {[ "color" := "black"; "font-family" := "serif" ]};
     "Heading1" := Cascade.mkStyle Cascade.Paragraph (Some "Normal")
                     {[ "color" := "navy"; "font-size" := "16pt" ]} ]}.

Definition heading : Cascade.Element :=
  Cascade.mkElement Cascade.Paragraph (Some "Heading1") None
    {[ "color" := "red" ]}.

(** A catalog whose only style is its own parent. *)
Definition looping_styles : gmap string Cascade.StyleDef :=
  {[ "Loop" := Cascade.mkStyle Cascade.Paragraph (Some "Loop") ∅ ]}.

End Sample.

(** ** Reading a command line as a whole *)

(** The two spellings of the help option. *)
Definition is_help (arg : string) : bool :=
  String.eqb arg "--help" || String.eqb arg "-h".

(** An argument the loop passes without leaving the process: a
    documented flag, or anything that does not start with ['-']. *)
Definition accepted (arg : string) : bool :=
  match documented_effect arg with
  | Some _ => true
  | None => negb (startsWith arg "-")
  end.

(** A positional argument that is not the empty string. *)
Definition is_path_argument (arg : string) : bool :=
  negb (startsWith arg "-") && negb (String.eqb arg "").

Definition path_arguments (args : list string) : list string :=
  List.filter is_path_argument args.

(** A path field as the script tests it: [null] and the empty string
    both count as not given. *)
Definition given (v : option string) : option string :=
  if truthy v then v else None.

Definition is_class_name (arg : string) : bool :=
  startsWith arg "--class-name=".

(** The [--class-name=...] arguments of a command line, in order. *)
Definition class_name_arguments (args : list string) : list string :=
  List.filter is_class_name args.

(** Whether [flag] occurs among the arguments. *)
Definition occurs (flag : string) (args : list string) : bool :=
  existsb (String.eqb flag) args.

(** * Properties *)

(** ** The [proc] monad *)

Lemma proc_bind_ret_l {A B} (a : A) (k : A -> proc B) :
  proc_bind (proc_ret a) k = k a.
Proof. unfold proc_bind, proc_ret. destruct (k a); reflexivity. Qed.

Lemma proc_bind_assoc {A B C} (m : proc A) (k : A -> proc B) (h : B -> proc C) :
  proc_bind (proc_bind m k) h = proc_bind m (fun a => proc_bind (k a) h).
Proof.
  destruct m as [out a | out c]; simpl; [| reflexivity].
  destruct (k a) as [out1 b | out1 c1]; simpl; [| reflexivity].
  destruct (h b) as [out2 c | out2 c2]; simpl; rewrite app_assoc; reflexivity.
Qed.

(** ** The argument loop *)

Lemma parseArgs_loop_app (xs ys : list string) (o : Options) :
  parseArgs_loop (xs ++ ys) o =
  proc_bind (parseArgs_loop xs o) (parseArgs_loop ys).
Proof.
  revert o. induction xs as [| x xs IH]; intros o.
  - symmetry. apply proc_bind_ret_l.
  - cbn [parseArgs_loop app]. rewrite proc_bind_assoc.
    destruct (parseArg o x) as [out o' | out c]; cbn [proc_bind].
    + rewrite IH. reflexivity.
    + reflexivity.
Qed.

(** ** String primitives *)

Lemma startsWith_inv (s p : string) :
  startsWith s p = true -> exists r, s = p +:+ r.
Proof.
  revert s. induction p as [| b p IH]; intros s H.
  - exists s. reflexivity.
  - destruct s as [| a s]; [discriminate |].
    cbn [startsWith] in H. apply andb_true_iff in H as [Hab Hs].
    apply Ascii.eqb_eq in Hab. subst b.
    destruct (IH s Hs) as [r ->]. exists r. reflexivity.
Qed.

Lemma startsWith_append (p r : string) : startsWith (p +:+ r) p = true.
Proof.
  induction p as [| b p IH]; [reflexivity |].
  simpl. rewrite Ascii.eqb_refl. exact IH.
Qed.

Lemma split_head (sep : ascii) (s : string) :
  head (split sep s) = Some (up_to sep s).
Proof.
  induction s as [| c s IH]; [reflexivity |].
  cbn [split up_to]. destruct (Ascii.eqb c sep); [reflexivity |].
  destruct (split sep s) as [| hd tl]; [discriminate |].
  cbn in IH |- *. congruence.
Qed.

(** The second piece of a split is the segment between the first and the
    second separator; there is none without a separator. *)
Lemma split_second (sep : ascii) (s : string) :
  js_index (split sep s) 1 = up_to sep <$> after_first sep s.
Proof.
  unfold js_index. induction s as [| c s IH]; [reflexivity |].
  cbn [split after_first]. destruct (Ascii.eqb c sep).
  - pose proof (split_head sep s) as Hh.
    destruct (split sep s); simpl in *; congruence.
  - destruct (split sep s) as [| hd tl] eqn:E.
    + pose proof (split_head sep s) as Hh. rewrite E in Hh. discriminate.
    + exact IH.
Qed.

Lemma class_name_segment (arg : string) :
  startsWith arg "--class-name=" = true ->
  exists name, name_segment arg = Some name /\
               js_index (split "=" arg) 1 = Some name.
Proof.
  intros H. apply startsWith_inv in H as [r ->].
  rewrite split_second. unfold name_segment.
  exists (up_to "=" r). split; reflexivity.
Qed.

(** ** One step of the loop *)

Ltac split_ifs :=
  repeat match goal with
         | |- context [if ?b then _ else _] => destruct b eqn:?
         end.

Ltac running_inv H :=
  first [ discriminate H
        | injection H as <- <-
        | idtac ].

(** A step that does not exit prints nothing, never clears
    [useBase64URL] and leaves [className] defined. *)
Lemma parseArg_running (o o' : Options) (arg : string) (out : list console_call) :
  parseArg o arg = Running out o' ->
  out = [] /\
  (useBase64URL (docxOptions o) = true -> useBase64URL (docxOptions o') = true) /\
  (is_Some (className (docxOptions o)) -> is_Some (className (docxOptions o'))).
Proof.
  unfold parseArg, printHelp, console_log, console_error, process_exit, proc_ret.
  cbn [proc_bind].
  intros H.
  destruct (startsWith arg "--class-name=") eqn:Hcn.
  - apply class_name_segment in Hcn as (name & _ & Hname).
    rewrite Hname in H. revert H. split_ifs; intros H; running_inv H;
      (split; [reflexivity | split; cbn; eauto]).
  - revert H. split_ifs; intros H; running_inv H;
      (split; [reflexivity | split; cbn; eauto]).
Qed.

Lemma parseArgs_loop_running (args : list string) (o o' : Options)
    (out : list console_call) :
  parseArgs_loop args o = Running out o' ->
  out = [] /\
  (useBase64URL (docxOptions o) = true -> useBase64URL (docxOptions o') = true) /\
  (is_Some (className (docxOptions o)) -> is_Some (className (docxOptions o'))).
Proof.
  revert o out. induction args as [| arg args IH]; intros o out H.
  - injection H as <- <-. auto.
  - cbn [parseArgs_loop] in H.
    destruct (parseArg o arg) as [out1 o1 | out1 c1] eqn:Hstep; [| discriminate].
    apply parseArg_running in Hstep as (-> & Hb & Hc).
    cbn [proc_bind] in H.
    destruct (parseArgs_loop args o1) as [out2 o2 | out2 c2] eqn:Hrest;
      [| discriminate].
    injection H as <- <-.
    apply IH in Hrest as (-> & Hb' & Hc'). auto.
Qed.

(** An argument that does not start with ['-'] fills [input], then
    [output], and is dropped after that. *)
Lemma parseArg_positional (o : Options) (arg : string) :
  startsWith arg "-" = false ->
  parseArg o arg =
  proc_ret (if negb (truthy (input o)) then set_input (Some arg) o
            else if negb (truthy (output o)) then set_output (Some arg) o
            else o).
Proof.
  intros H. unfold parseArg.
  destruct arg as [| c arg].
  - cbn [String.eqb startsWith orb negb].
    destruct (negb (truthy (input o))); [reflexivity |].
    destruct (negb (truthy (output o))); reflexivity.
  - cbn [startsWith] in H. rewrite andb_true_r in H.
    cbn [String.eqb startsWith]. rewrite H. cbn [andb orb negb].
    destruct (negb (truthy (input o))); [reflexivity |].
    destruct (negb (truthy (output o))); reflexivity.
Qed.

Lemma parseArgs_loop_positional (args : list string) (o : Options) :
  Forall (fun arg => startsWith arg "-" = false) args ->
  exists o', parseArgs_loop args o = Running [] o' /\
             docxOptions o' = docxOptions o /\
             bodyOnly o' = bodyOnly o.
Proof.
  intros H. revert o. induction H as [| arg args Harg _ IH]; intros o.
  - exists o. auto.
  - cbn [parseArgs_loop]. rewrite (parseArg_positional _ _ Harg).
    rewrite proc_bind_ret_l.
    match goal with |- context [parseArgs_loop args ?o1] =>
      destruct (IH o1) as (o' & -> & Hd & Hb); exists o'
    end.
    split; [reflexivity |]. rewrite Hd, Hb.
    destruct (negb (truthy (input o))); [auto |].
    destruct (negb (truthy (output o))); auto.
Qed.

(** One recognized flag: the step sets the designated field to the
    documented value and nothing else. *)
Lemma parseArg_documented (o : Options) (arg : string) (fld : field) (v : js_value) :
  documented_effect arg = Some (fld, v) ->
  exists o', parseArg o arg = Running [] o' /\
             get_field fld o' = v /\
             forall f, f <> fld -> get_field f o' = get_field f o.
Proof.
  unfold documented_effect. cbn [assoc flag_table]. intros H.
  repeat match type of H with
         | context [if String.eqb arg ?k then _ else _] =>
             destruct (String.eqb_spec arg k) as [-> | ?];
             [ injection H as <- <-; eexists;
               split; [reflexivity |];
               split; [reflexivity |];
               intros f Hf; destruct f; try reflexivity; congruence
             | ]
         end.
  destruct (startsWith arg "--class-name=") eqn:Hcn; [| discriminate].
  destruct (class_name_segment _ Hcn) as (name & Hseg & Hidx).
  rewrite Hseg in H. injection H as <- <-.
  unfold parseArg. rewrite Hidx.
  apply startsWith_inv in Hcn as [r ->].
  eexists. split; [reflexivity |].
  split; [reflexivity |].
  intros f Hf; destruct f; try reflexivity; congruence.
Qed.

(** An unknown option: the step reports it and exits with status 1,
    whatever the options gathered so far. *)
Lemma parseArg_unknown (o : Options) (arg : string) :
  unknown_option arg ->
  parseArg o arg = Exited [ConsoleError ["Unknown option: " +:+ arg]] 1.
Proof.
  intros (Hdash & Hdoc & Hhelp & Hh).
  unfold documented_effect in Hdoc. cbn [assoc flag_table] in Hdoc.
  repeat match type of Hdoc with
         | context [if String.eqb arg ?k then _ else _] =>
             destruct (String.eqb arg k) eqn:?; [discriminate Hdoc |]
         end.
  destruct (startsWith arg "--class-name=") eqn:Hcn.
  { destruct (class_name_segment _ Hcn) as (name & Hseg & _).
    rewrite Hseg in Hdoc. discriminate. }
  apply String.eqb_neq in Hhelp, Hh.
  unfold parseArg.
  repeat match goal with
         | E : ?b = false |- context [?b] => rewrite E
         end.
  rewrite Hdash. reflexivity.
Qed.

(** ** [parseArgs]: the specification's claims *)

(** C2: an argument list with positional arguments only (none starts
    with ['-']) makes [parseArgs] return, without printing, a structure
    whose [docxOptions] is the documented default configuration. *)
Theorem parseArgs_positional_defaults (args : list string) :
  Forall (fun arg => startsWith arg "-" = false) args ->
  exists o,
    parseArgs args = Running [] o /\
    docxOptions o =
      {| inWrapper := true; hideWrapperOnPrint := false;
         ignoreWidth := false; ignoreHeight := false; ignoreFonts := false;
         breakPages := true; debug := false; experimental := false;
         className := Some "docx"; trimXmlDeclaration := true;
         ignoreLastRenderedPageBreak := true; renderHeaders := true;
         renderFooters := true; renderFootnotes := true;
         renderEndnotes := true; useBase64URL := true;
         renderChanges := false; renderComments := false;
         renderAltChunks := true |}.
Proof.
  intros H. unfold parseArgs.
  destruct (parseArgs_loop_positional args initial_options H) as (o & Ho & Hd & _).
  exists o. split; [exact Ho | exact Hd].
Qed.

Lemma parseArgs_positional_defaults_witness :
  Forall (fun arg => startsWith arg "-" = false)
         ["report.docx"; "report.html"; "spare"] /\
  exists o,
    parseArgs ["report.docx"; "report.html"; "spare"] = Running [] o /\
    docxOptions o =
      {| inWrapper := true; hideWrapperOnPrint := false;
         ignoreWidth := false; ignoreHeight := false; ignoreFonts := false;
         breakPages := true; debug := false; experimental := false;
         className := Some "docx"; trimXmlDeclaration := true;
         ignoreLastRenderedPageBreak := true; renderHeaders := true;
         renderFooters := true; renderFootnotes := true;
         renderEndnotes := true; useBase64URL := true;
         renderChanges := false; renderComments := false;
         renderAltChunks := true |}.
Proof.
  split.
  - repeat constructor.
  - apply (parseArgs_positional_defaults ["report.docx"; "report.html"; "spare"]).
    repeat constructor.
Defined.

(** C4: appending one recognized option flag to an argument list sets
    the flag's designated field to its documented value (for
    [--class-name=NAME], the segment between the first and any second
    ['=']) and leaves every other field of the structure returned by
    [parseArgs], and the console, as they were; on a list that already
    made [parseArgs] exit, nothing changes at all. *)
Theorem parseArgs_flag_frame (args : list string) (arg : string)
    (fld : field) (v : js_value) :
  documented_effect arg = Some (fld, v) ->
  (forall out o,
      parseArgs args = Running out o ->
      exists o',
        parseArgs (args ++ [arg]) = Running out o' /\
        get_field fld o' = v /\
        forall f, f <> fld -> get_field f o' = get_field f o) /\
  (forall out code,
      parseArgs args = Exited out code ->
      parseArgs (args ++ [arg]) = Exited out code).
Proof.
  intros Hdoc. unfold parseArgs. split.
  - intros out o Hargs.
    destruct (parseArg_documented o arg fld v Hdoc) as (o' & Hstep & Hv & Hframe).
    exists o'. split; [| split; assumption].
    rewrite parseArgs_loop_app, Hargs. cbn [parseArgs_loop proc_bind].
    rewrite Hstep. cbn [proc_bind proc_ret]. rewrite !app_nil_r. reflexivity.
  - intros out code Hargs.
    rewrite parseArgs_loop_app, Hargs. reflexivity.
Qed.

Lemma parseArgs_flag_frame_witness :
  documented_effect "--class-name=memo=x" = Some (F_className, JString "memo") /\
  exists o',
    parseArgs (["a.docx"; "--debug"] ++ ["--class-name=memo=x"]) = Running [] o' /\
    get_field F_className o' = JString "memo" /\
    forall f, f <> F_className ->
      get_field f o' =
      get_field f (with_docx (set_debug true)
                     (set_input (Some "a.docx") initial_options)).
Proof.
  split; [reflexivity |].
  apply (parseArgs_flag_frame ["a.docx"; "--debug"] "--class-name=memo=x"
           F_className (JString "memo") eq_refl).
  reflexivity.
Defined.

(** C6: whenever [parseArgs] returns, every configuration field of the
    returned [docxOptions] is present with a defined value. *)
Theorem parseArgs_fully_populated (args : list string)
    (out : list console_call) (o : Options) :
  parseArgs args = Running out o ->
  forall f, In f docx_fields -> is_defined (get_field f o) = true.
Proof.
  intros H f Hf. unfold parseArgs in H.
  apply parseArgs_loop_running in H as (_ & _ & Hc).
  destruct (Hc (ltac:(eexists; reflexivity))) as [name Hname].
  cbn [docx_fields In] in Hf.
  repeat (destruct Hf as [<- | Hf]; [cbn; try rewrite Hname; reflexivity |]).
  destruct Hf.
Qed.

Lemma parseArgs_fully_populated_witness :
  parseArgs ["--class-name="; "x.docx"; "--no-headers"] =
    Running [] (set_input (Some "x.docx")
                  (with_docx (set_renderHeaders false)
                     (with_docx (set_className (Some "")) initial_options))) /\
  forall f, In f docx_fields ->
    is_defined
      (get_field f (set_input (Some "x.docx")
                      (with_docx (set_renderHeaders false)
                         (with_docx (set_className (Some "")) initial_options))))
    = true.
Proof.
  split; [reflexivity |].
  apply (parseArgs_fully_populated ["--class-name="; "x.docx"; "--no-headers"] []).
  reflexivity.
Defined.

(** C8: whenever [parseArgs] returns, [useBase64URL] is [true]: it
    starts [true] and no branch of the loop clears it. *)
Theorem parseArgs_useBase64URL (args : list string)
    (out : list console_call) (o : Options) :
  parseArgs args = Running out o ->
  useBase64URL (docxOptions o) = true.
Proof.
  intros H. unfold parseArgs in H.
  apply parseArgs_loop_running in H as (_ & Hb & _).
  apply Hb. reflexivity.
Qed.

Lemma parseArgs_useBase64URL_witness :
  parseArgs ["x.docx"; "--base64"; "--no-wrapper"] =
    Running [] (with_docx (set_inWrapper false)
                  (with_docx (set_useBase64URL true)
                     (set_input (Some "x.docx") initial_options))) /\
  useBase64URL
    (docxOptions (with_docx (set_inWrapper false)
                    (with_docx (set_useBase64URL true)
                       (set_input (Some "x.docx") initial_options)))) = true.
Proof.
  split; [reflexivity |].
  apply (parseArgs_useBase64URL ["x.docx"; "--base64"; "--no-wrapper"] []).
  reflexivity.
Defined.

(** C9: an argument that starts with ['-'] and is neither a recognized
    flag nor [--help] / [-h] is never skipped: an argument list that
    holds one makes [parseArgs] exit, and when the loop reaches the
    argument it prints [Unknown option: <arg>] on the error stream and
    exits with status 1, without looking at the arguments after it. *)
Theorem parseArgs_unknown_option (pre post : list string) (arg : string) :
  unknown_option arg ->
  (exists out code, parseArgs (pre ++ arg :: post) = Exited out code) /\
  (forall out o,
      parseArgs pre = Running out o ->
      parseArgs (pre ++ arg :: post) =
        Exited [ConsoleError ["Unknown option: " +:+ arg]] 1).
Proof.
  intros Hunk. unfold parseArgs.
  assert (Hreach : forall out o,
             parseArgs_loop pre initial_options = Running out o ->
             parseArgs_loop (pre ++ arg :: post) initial_options =
               Exited [ConsoleError ["Unknown option: " +:+ arg]] 1).
  { intros out o Hpre.
    pose proof (parseArgs_loop_running _ _ _ _ Hpre) as (-> & _).
    rewrite parseArgs_loop_app, Hpre. cbn [parseArgs_loop proc_bind].
    rewrite (parseArg_unknown o arg Hunk). reflexivity. }
  split; [| exact Hreach].
  destruct (parseArgs_loop pre initial_options) as [out o | out code] eqn:Hpre.
  - rewrite (Hreach out o eq_refl). eauto.
  - rewrite parseArgs_loop_app, Hpre. cbn [proc_bind]. eauto.
Qed.

Lemma parseArgs_unknown_option_witness :
  unknown_option "--verbose" /\
  parseArgs (["a.docx"; "--debug"] ++ "--verbose" :: ["--help"]) =
    Exited [ConsoleError ["Unknown option: --verbose"]] 1.
Proof.
  assert (Hunk : unknown_option "--verbose").
  { split; [reflexivity | split; [reflexivity | split; discriminate]]. }
  split; [exact Hunk |].
  apply (proj2 (parseArgs_unknown_option ["a.docx"; "--debug"] ["--help"]
                  "--verbose" Hunk) []
           (with_docx (set_debug true) (set_input (Some "a.docx") initial_options))).
  reflexivity.
Defined.

(** ** The default output path *)

Lemma canonicalize_lower (c p : ascii) :
  In p ["."; "d"; "o"; "c"; "x"]%char ->
  Ascii.eqb (canonicalize c) (canonicalize p) = Ascii.eqb (lower c) p.
Proof.
  intros Hp. cbn [In] in Hp.
  repeat (destruct Hp as [<- | Hp];
          [destruct c as [[] [] [] [] [] [] [] []]; reflexivity |]).
  destruct Hp.
Qed.

Lemma matches_docx (ext : string) :
  matches_to_end ".docx" ext = String.eqb (lowercase ext) ".docx".
Proof.
  destruct ext as [| c1 [| c2 [| c3 [| c4 [| c5 [| c6 ext]]]]]];
    cbn [matches_to_end lowercase String.eqb];
    rewrite ?canonicalize_lower by (cbn [In]; auto 10);
    repeat match goal with
           | |- context [Ascii.eqb (lower ?a) ?b] =>
               destruct (Ascii.eqb (lower a) b)
           end;
    reflexivity.
Qed.

Lemma append_nil_l (s : string) : "" +:+ s = s.
Proof. reflexivity. Qed.

Lemma append_cons (c : ascii) (s t : string) :
  String c s +:+ t = String c (s +:+ t).
Proof. reflexivity. Qed.

Lemma length_append (s t : string) :
  String.length (s +:+ t) = String.length s + String.length t.
Proof.
  induction s as [| c s IH]; [reflexivity |].
  rewrite append_cons. cbn [String.length]. rewrite IH. reflexivity.
Qed.

Lemma length_lowercase (s : string) :
  String.length (lowercase s) = String.length s.
Proof. induction s; cbn; congruence. Qed.

Lemma has_docx_suffix_spec (path : string) :
  ends_in_docx path <-> has_docx_suffix path = true.
Proof.
  split.
  - intros (stem & ext & -> & Hext).
    induction stem as [| c stem IH].
    + rewrite append_nil_l. apply String.eqb_eq in Hext.
      destruct ext; [discriminate Hext |].
      cbn [has_docx_suffix]. rewrite Hext. reflexivity.
    + rewrite append_cons. cbn [has_docx_suffix]. rewrite IH. apply orb_true_r.
  - induction path as [| c path IH]; cbn [has_docx_suffix]; intros H.
    + rewrite orb_false_r in H. apply String.eqb_eq in H. discriminate.
    + apply orb_true_iff in H as [H | H].
      * apply String.eqb_eq in H. exists "", (String c path). auto.
      * destruct (IH H) as (stem & ext & -> & Hext).
        exists (String c stem), ext. auto.
Qed.

(** A path that ends in [.docx] has that ending replaced. *)
Lemma default_output_docx (stem ext : string) :
  lowercase ext = ".docx" ->
  default_output (stem +:+ ext) = stem +:+ ".html".
Proof.
  intros Hext. unfold default_output.
  assert (Hlen : String.length ext = 5).
  { rewrite <- length_lowercase, Hext. reflexivity. }
  induction stem as [| c stem IH].
  - rewrite !append_nil_l. destruct ext; [discriminate Hext |].
    cbn [replace_at_end]. rewrite matches_docx, Hext. reflexivity.
  - rewrite !append_cons. cbn [replace_at_end].
    rewrite matches_docx.
    destruct (String.eqb_spec (lowercase (String c (stem +:+ ext))) ".docx")
      as [E | _].
    + apply (f_equal String.length) in E.
      rewrite length_lowercase in E. cbn [String.length] in E.
      rewrite length_append, Hlen in E. lia.
    + rewrite IH. reflexivity.
Qed.

(** Any other path is returned as it is. *)
Lemma default_output_other (path : string) :
  ~ ends_in_docx path -> default_output path = path.
Proof.
  rewrite has_docx_suffix_spec. unfold default_output.
  induction path as [| c path IH]; intros H; [reflexivity |].
  cbn [has_docx_suffix] in H. cbn [replace_at_end]. rewrite matches_docx.
  destruct (String.eqb (lowercase (String c path)) ".docx"); cbn [orb] in H.
  - congruence.
  - rewrite IH; [reflexivity | exact H].
Qed.

(** ** [convertDocxToHtml] and the main block *)

Section ConversionFacts.

Variable renderAsync : string -> DocxOptions -> settled (string * string).
Variable JSON_stringify : DocxOptions -> string.
Variable basename : string -> string -> string.
Variable read_error : string -> js_error.
Variable write_error : string -> option js_error.

Local Abbreviation convert :=
  (convertDocxToHtml renderAsync JSON_stringify basename read_error write_error).
Local Abbreviation run_main :=
  (main renderAsync JSON_stringify basename read_error write_error).

Ltac unfold_convert :=
  unfold convertDocxToHtml, task_bind, task_when, task_log, task_ret,
    readFileSync, await_renderAsync, writeFileSync.

(** The conversion prints on the standard stream only. *)
Lemma convert_logs_only (inp outp : string) (o : Options)
    (fs fs' : gmap string string) (log : list console_call) (r : settled unit) :
  convert inp outp o fs = (log, fs', r) ->
  Forall is_console_log log.
Proof.
  unfold_convert.
  destruct (debug (docxOptions o)); cbn;
    destruct (fs !! inp) as [buf |]; cbn;
    try destruct (renderAsync buf (docxOptions o)) as [rendered | err]; cbn;
    try destruct (write_error outp); cbn;
    intros H; injection H as <- _ _; repeat constructor.
Qed.

(** The only change the conversion ever makes to the file system is the
    one write of the assembled document, and it is made only once the
    input was read and the renderer resolved. *)
Lemma convert_outcome (inp outp : string) (o : Options)
    (fs fs' : gmap string string) (log : list console_call) (r : settled unit) :
  convert inp outp o fs = (log, fs', r) ->
  (fs' = fs /\ exists err, r = Rejected err) \/
  (exists buf rendered,
      fs !! inp = Some buf /\
      renderAsync buf (docxOptions o) = Resolved rendered /\
      write_error outp = None /\
      fs' = <[outp := assemble_html basename inp o rendered]> fs /\
      r = Resolved tt).
Proof.
  unfold_convert.
  destruct (debug (docxOptions o)); cbn;
    destruct (fs !! inp) as [buf |] eqn:Hbuf; cbn;
    try destruct (renderAsync buf (docxOptions o)) as [rendered | err] eqn:Hr; cbn;
    try destruct (write_error outp) eqn:Hw; cbn;
    intros H; injection H as _ <- <-; eauto 10.
Qed.

(** C1: when the read of the input succeeds and [renderAsync] rejects,
    the promise of [convertDocxToHtml] rejects with the same error and
    the file system is exactly what it was: the output path keeps its
    prior contents, whether it held any or not. *)
Theorem render_rejection_writes_nothing (inp outp : string) (o : Options)
    (fs : gmap string string) (buf : string) (err : js_error) :
  fs !! inp = Some buf ->
  renderAsync buf (docxOptions o) = Rejected err ->
  exists log,
    convert inp outp o fs = (log, fs, Rejected err) /\
    Forall is_console_log log.
Proof.
  intros Hbuf Hr.
  destruct (convert inp outp o fs) as [[log fs'] r] eqn:Hrun.
  exists log. split; [| eapply convert_logs_only; exact Hrun].
  revert Hrun. unfold_convert.
  destruct (debug (docxOptions o)); cbn; rewrite Hbuf; cbn; rewrite Hr;
    congruence.
Qed.

(** C5: when the conversion promise rejects, the process prints the
    conversion's progress lines, then one [console.error] carrying the
    error's message, then the stack only if [debug] is set, and exits
    with status 1; nothing before the report is an error line. *)
Theorem main_reports_rejection (args : list string) (fs fs' : gmap string string)
    (out log : list console_call) (o : Options) (inputPath : string)
    (err : js_error) :
  parseArgs args = Running out o ->
  input o = Some inputPath ->
  inputPath <> "" ->
  convert inputPath (resolve_output inputPath o)
    (set_output (Some (resolve_output inputPath o)) o) fs
    = (log, fs', Rejected err) ->
  snd (run_main args fs) =
    Exited (log ++ ConsoleError ["Error:"; message err]
                :: (if debug (docxOptions o)
                    then [ConsoleError [stack err]] else []))%list 1 /\
  Forall is_console_log log.
Proof.
  intros Hargs Hin Hne Hrun.
  split; [| eapply convert_logs_only; exact Hrun].
  pose proof Hargs as Hquiet. unfold parseArgs in Hquiet.
  apply parseArgs_loop_running in Hquiet as (-> & _).
  unfold main. rewrite Hargs, Hin.
  apply String.eqb_neq in Hne. rewrite Hne.
  cbv zeta. rewrite Hrun.
  unfold on_rejected, console_error, process_exit, proc_ret.
  cbn [snd proc_bind docxOptions set_output app].
  destruct (debug (docxOptions o)); cbn [proc_bind app]; reflexivity.
Qed.

(** C7: with no output path on the command line, the output path is
    the input path with a final [.docx], in any case, replaced by
    [.html]; an input path with no such ending is its own output path,
    and a successful conversion then replaces the input file by the
    document it was rendered to. *)
Theorem output_defaults_to_input (args : list string) (fs : gmap string string)
    (out : list console_call) (o : Options) (inputPath : string) :
  parseArgs args = Running out o ->
  input o = Some inputPath ->
  inputPath <> "" ->
  truthy (output o) = false ->
  (forall stem ext,
      inputPath = stem +:+ ext -> lowercase ext = ".docx" ->
      resolve_output inputPath o = stem +:+ ".html") /\
  (~ ends_in_docx inputPath ->
   resolve_output inputPath o = inputPath /\
   forall buf rendered,
     fs !! inputPath = Some buf ->
     renderAsync buf (docxOptions o) = Resolved rendered ->
     write_error inputPath = None ->
     fst (run_main args fs) =
       <[inputPath := assemble_html basename inputPath o rendered]> fs).
Proof.
  intros Hargs Hin Hne Hout.
  assert (Hres : resolve_output inputPath o = default_output inputPath).
  { unfold resolve_output. unfold truthy in Hout.
    destruct (output o) as [p |]; [| reflexivity].
    apply negb_false_iff in Hout. rewrite Hout. reflexivity. }
  split.
  - intros stem ext -> Hext. rewrite Hres. apply default_output_docx, Hext.
  - intros Hnot. rewrite Hres, (default_output_other _ Hnot).
    split; [reflexivity |].
    intros buf rendered Hbuf Hr Hw.
    unfold main. rewrite Hargs, Hin.
    apply String.eqb_neq in Hne. rewrite Hne.
    rewrite Hres, (default_output_other _ Hnot). cbv zeta.
    unfold_convert. cbn [docxOptions set_output].
    destruct (debug (docxOptions o)); cbn; rewrite Hbuf; cbn;
      rewrite Hr, Hw; reflexivity.
Qed.

End ConversionFacts.

(** ** The style cascade *)

Module CascadeFacts.
Import Cascade.

Lemma style_chain_S (fuel : nat) (catalog : gmap string StyleDef) (id : string) :
  style_chain (S fuel) catalog id =
  match catalog !! id with
  | None => Some []
  | Some st =>
      match basedOn st with
      | None => Some [st]
      | Some parent => cons st <$> style_chain fuel catalog parent
      end
  end.
Proof. reflexivity. Qed.

(** More fuel never changes a walk that ended. *)
Lemma style_chain_more_fuel (fuel : nat) (catalog : gmap string StyleDef)
    (id : string) (chain : list StyleDef) :
  style_chain fuel catalog id = Some chain ->
  style_chain (S fuel) catalog id = Some chain.
Proof.
  revert id chain. induction fuel as [| fuel IH]; intros id chain H;
    [discriminate |].
  rewrite style_chain_S in H. rewrite style_chain_S.
  destruct (catalog !! id) as [st |]; [| exact H].
  destruct (basedOn st) as [parent |]; [| exact H].
  destruct (style_chain fuel catalog parent) as [tail |] eqn:Ht;
    [| discriminate].
  rewrite (IH _ _ Ht). exact H.
Qed.

(** A walk that ended needs one unit of fuel more than it found styles. *)
Lemma style_chain_enough_fuel (fuel : nat) (catalog : gmap string StyleDef)
    (id : string) (chain : list StyleDef) :
  style_chain fuel catalog id = Some chain ->
  style_chain (S (length chain)) catalog id = Some chain.
Proof.
  revert id chain. induction fuel as [| fuel IH]; intros id chain H;
    [discriminate |].
  rewrite style_chain_S in H. rewrite style_chain_S.
  destruct (catalog !! id) as [st |]; [| exact H].
  destruct (basedOn st) as [parent |]; [| exact H].
  destruct (style_chain fuel catalog parent) as [tail |] eqn:Ht;
    [| discriminate].
  injection H as <-. cbn [length].
  rewrite (IH _ _ Ht). reflexivity.
Qed.

Lemma style_chain_mono (n m : nat) (catalog : gmap string StyleDef)
    (id : string) (chain : list StyleDef) :
  n <= m ->
  style_chain n catalog id = Some chain ->
  style_chain m catalog id = Some chain.
Proof.
  intros Hle H. induction Hle as [| m _ IH]; [exact H |].
  apply style_chain_more_fuel, IH.
Qed.

(** The walk is deterministic: two walks from one style that both end
    find the same chain. *)
Lemma style_chain_functional (n m : nat) (catalog : gmap string StyleDef)
    (id : string) (c1 c2 : list StyleDef) :
  style_chain n catalog id = Some c1 ->
  style_chain m catalog id = Some c2 ->
  c1 = c2.
Proof.
  intros H1 H2.
  apply (style_chain_mono n (n `max` m)) in H1; [| lia].
  apply (style_chain_mono m (n `max` m)) in H2; [| lia].
  congruence.
Qed.

Lemma chain_ids_length (fuel : nat) (catalog : gmap string StyleDef)
    (id : string) (chain : list StyleDef) :
  style_chain fuel catalog id = Some chain ->
  length (chain_ids fuel catalog id) = length chain.
Proof.
  revert id chain. induction fuel as [| fuel IH]; intros id chain H;
    [discriminate |].
  rewrite style_chain_S in H. cbn [chain_ids].
  destruct (catalog !! id) as [st |]; [| injection H as <-; reflexivity].
  destruct (basedOn st) as [parent |]; [| injection H as <-; reflexivity].
  destruct (style_chain fuel catalog parent) as [tail |] eqn:Ht;
    [| discriminate].
  injection H as <-. cbn [length]. rewrite (IH _ _ Ht). reflexivity.
Qed.

Lemma chain_ids_in_catalog (fuel : nat) (catalog : gmap string StyleDef)
    (id x : string) :
  x ∈ chain_ids fuel catalog id -> x ∈ dom catalog.
Proof.
  revert id. induction fuel as [| fuel IH]; intros id H; cbn [chain_ids] in H.
  - apply elem_of_nil in H. destruct H.
  - destruct (catalog !! id) as [st |] eqn:Hst;
      [| apply elem_of_nil in H; destruct H].
    apply elem_of_cons in H as [-> | H].
    + apply elem_of_dom. eauto.
    + destruct (basedOn st) as [parent |];
        [eapply IH; exact H | apply elem_of_nil in H; destruct H].
Qed.

(** From a style that a finished walk passes, the walk finishes too, and
    finds no more styles than the whole walk did. *)
Lemma chain_ids_rest (fuel : nat) (catalog : gmap string StyleDef)
    (id x : string) (chain : list StyleDef) :
  style_chain fuel catalog id = Some chain ->
  x ∈ chain_ids fuel catalog id ->
  exists n rest, style_chain n catalog x = Some rest /\
                 length rest <= length chain.
Proof.
  revert id chain. induction fuel as [| fuel IH]; intros id chain H Hx;
    [discriminate |].
  pose proof H as Hwhole.
  rewrite style_chain_S in H. cbn [chain_ids] in Hx.
  destruct (catalog !! id) as [st |];
    [| apply elem_of_nil in Hx; destruct Hx].
  apply elem_of_cons in Hx as [-> | Hx]; [eauto |].
  destruct (basedOn st) as [parent |];
    [| apply elem_of_nil in Hx; destruct Hx].
  destruct (style_chain fuel catalog parent) as [tail |] eqn:Ht;
    [| discriminate].
  injection H as <-.
  destruct (IH _ _ Ht Hx) as (n & rest & Hrest & Hlen).
  exists n, rest. split; [exact Hrest |]. cbn [length]. lia.
Qed.

(** A finished walk passes no style twice. *)
Lemma chain_ids_NoDup (fuel : nat) (catalog : gmap string StyleDef)
    (id : string) (chain : list StyleDef) :
  style_chain fuel catalog id = Some chain ->
  NoDup (chain_ids fuel catalog id).
Proof.
  revert id chain. induction fuel as [| fuel IH]; intros id chain H;
    [discriminate |].
  pose proof H as Hwhole.
  rewrite style_chain_S in H. cbn [chain_ids].
  destruct (catalog !! id) as [st |]; [| constructor].
  destruct (basedOn st) as [parent |];
    [| constructor; [apply not_elem_of_nil | constructor]].
  destruct (style_chain fuel catalog parent) as [tail |] eqn:Ht;
    [| discriminate].
  injection H as <-.
  constructor; [| eapply IH; exact Ht].
  intros Hin.
  destruct (chain_ids_rest _ _ _ _ _ Ht Hin) as (n & rest & Hrest & Hlen).
  pose proof (style_chain_functional _ _ _ _ _ _ Hrest Hwhole) as ->.
  cbn [length] in Hlen. lia.
Qed.

(** A finished walk finds at most as many styles as the catalog holds. *)
Lemma style_chain_bounded (fuel : nat) (catalog : gmap string StyleDef)
    (id : string) (chain : list StyleDef) :
  style_chain fuel catalog id = Some chain ->
  length chain <= size catalog.
Proof.
  intros H.
  rewrite <- (chain_ids_length _ _ _ _ H).
  rewrite <- (size_list_to_set (C := gset string)
                (chain_ids fuel catalog id)) by (eapply chain_ids_NoDup; exact H).
  rewrite <- (size_dom (D := gset string) catalog).
  apply subseteq_size. intros x Hx.
  apply elem_of_list_to_set in Hx.
  eapply chain_ids_in_catalog; exact Hx.
Qed.

(** The cycle check is exact: whenever the walk from a style ends at
    all, [resolve_chain] finds its chain. *)
Lemma resolve_chain_complete (fuel : nat) (catalog : gmap string StyleDef)
    (id : string) (chain : list StyleDef) :
  style_chain fuel catalog id = Some chain ->
  resolve_chain catalog id = Some chain.
Proof.
  intros H. unfold resolve_chain.
  apply (style_chain_mono (S (length chain))).
  - pose proof (style_chain_bounded _ _ _ _ H). lia.
  - eapply style_chain_enough_fuel; exact H.
Qed.

(** The most specific style of a chain decides every property it
    assigns. *)
Lemma merge_chain_head (st : StyleDef) (tail : list StyleDef)
    (P v : string) :
  styleProps st !! P = Some v ->
  merge_chain (st :: tail) !! P = Some v.
Proof.
  intros H. unfold merge_chain. cbn [rev].
  rewrite fold_left_app. cbn [fold_left].
  apply lookup_union_Some_l. exact H.
Qed.

(** A walk that starts at a style of the catalog starts with it. *)
Lemma style_chain_head (fuel : nat) (catalog : gmap string StyleDef)
    (id : string) (st : StyleDef) (chain : list StyleDef) :
  catalog !! id = Some st ->
  style_chain fuel catalog id = Some chain ->
  exists tail, chain = st :: tail.
Proof.
  intros Hst H. destruct fuel as [| fuel]; [discriminate |].
  cbn [style_chain] in H. rewrite Hst in H.
  destruct (basedOn st) as [parent |].
  - destruct (style_chain fuel catalog parent) as [tail |];
      [| discriminate].
    injection H as <-. eauto.
  - injection H as <-. eauto.
Qed.

(** C3: an element whose named style assigns [P = a], whose named
    style's parent assigns [P = b] and whose direct formatting assigns
    [P = c] resolves [P] to [c]; the named style on its own resolves it
    to [a], its parent on its own to [b].  The inheritance chain of the
    named style is required to terminate, as the data model demands. *)
Theorem direct_formatting_wins
    (defaults : element_kind -> gmap string string)
    (catalog : gmap string StyleDef)
    (numberings : gmap string (list (gmap string string)))
    (e : Element) (s p : string) (st pst : StyleDef) (P a b c : string)
    (fuel : nat) (chain : list StyleDef) :
  styleName e = Some s ->
  catalog !! s = Some st ->
  styleProps st !! P = Some a ->
  basedOn st = Some p ->
  catalog !! p = Some pst ->
  styleProps pst !! P = Some b ->
  cssStyle e !! P = Some c ->
  style_chain fuel catalog s = Some chain ->
  exists inherited named eff,
    named_style_props catalog (Some p) = Some inherited /\
    inherited !! P = Some b /\
    named_style_props catalog (Some s) = Some named /\
    named !! P = Some a /\
    effective_style defaults catalog numberings e = Some eff /\
    eff !! P = Some c.
Proof.
  intros Hname Hst Ha Hbased Hpst Hb Hc Hchain.
  apply resolve_chain_complete in Hchain. unfold resolve_chain in Hchain.
  rewrite style_chain_S, Hst, Hbased in Hchain.
  destruct (style_chain (size catalog) catalog p) as [tail |] eqn:Htail;
    [| discriminate].
  injection Hchain as <-.
  destruct (style_chain_head _ _ _ _ _ Hpst Htail) as [tail' ->].
  exists (merge_chain (pst :: tail')), (merge_chain (st :: pst :: tail')).
  eexists.
  split.
  { cbn [named_style_props]. unfold resolve_chain.
    rewrite (style_chain_more_fuel _ _ _ _ Htail). reflexivity. }
  split; [apply merge_chain_head, Hb |].
  assert (Hnamed : named_style_props catalog (Some s)
                   = Some (merge_chain (st :: pst :: tail'))).
  { cbn [named_style_props]. unfold resolve_chain.
    rewrite style_chain_S, Hst, Hbased, Htail. reflexivity. }
  split; [exact Hnamed |].
  split; [apply merge_chain_head, Ha |].
  unfold effective_style. rewrite Hname, Hnamed.
  split; [reflexivity |].
  apply lookup_union_Some_l, Hc.
Qed.

End CascadeFacts.

(** ** Concrete runs *)

Example run_plain :
  Sample.run ["memo.docx"] Sample.disk =
    (<["memo.html" :=
         assemble_html Sample.basename "memo.docx" initial_options
           ("<style>.docx { color: black }</style>",
            "<section><p>Hello</p></section>")]> Sample.disk,
     Running [ConsoleLog ["Reading: memo.docx"];
              ConsoleLog ["Converting..."];
              ConsoleLog ["Output: memo.html"];
              ConsoleLog ["Done!"]] tt).
Proof. vm_compute. reflexivity. Qed.

Example run_broken :
  Sample.run ["broken.docx"; "out.html"] Sample.disk =
    (Sample.disk,
     Exited [ConsoleLog ["Reading: broken.docx"];
             ConsoleLog ["Converting..."];
             ConsoleError ["Error:"; message Sample.bad_zip]] 1).
Proof. vm_compute. reflexivity. Qed.

Example run_missing_input :
  snd (Sample.run ["--debug"] Sample.disk) =
    Exited [ConsoleError ["Error: No input file specified"];
            ConsoleLog ["Usage: node scripts/docx-to-html.mjs <input.docx> [output.html] [options]"];
            ConsoleLog ["Use --help for more information"]] 1.
Proof. vm_compute. reflexivity. Qed.

Example run_help :
  Sample.run ["memo.docx"; "-h"; "--bogus"] Sample.disk =
    (Sample.disk, Exited [ConsoleLog [help_text]] 0).
Proof. vm_compute. reflexivity. Qed.

Example default_output_upper : default_output "Memo.DocX" = "Memo.html".
Proof. reflexivity. Qed.

Example default_output_inner : default_output "a.docx.bak" = "a.docx.bak".
Proof. reflexivity. Qed.

Lemma looping_chain_never_ends (fuel : nat) :
  Cascade.style_chain fuel Sample.looping_styles "Loop" = None.
Proof.
  induction fuel as [| fuel IH]; [reflexivity |].
  rewrite CascadeFacts.style_chain_S.
  replace (Sample.looping_styles !! "Loop")
    with (Some (Cascade.mkStyle Cascade.Paragraph (Some "Loop") ∅))
    by (vm_compute; reflexivity).
  cbn [Cascade.basedOn]. rewrite IH. reflexivity.
Qed.

Example looping_chain_detected :
  Cascade.effective_style (fun _ => ∅) Sample.looping_styles ∅
    (Cascade.mkElement Cascade.Paragraph (Some "Loop") None ∅) = None.
Proof. vm_compute. reflexivity. Qed.

Lemma render_rejection_writes_nothing_witness :
  Sample.disk !! "broken.docx" = Some "plain text" /\
  Sample.renderAsync "plain text" (docxOptions initial_options)
    = Rejected Sample.bad_zip /\
  exists log,
    Sample.convert "broken.docx" "out.html" initial_options Sample.disk
      = (log, Sample.disk, Rejected Sample.bad_zip) /\
    Forall is_console_log log.
Proof.
  split; [vm_compute; reflexivity |]. split; [reflexivity |].
  apply (render_rejection_writes_nothing Sample.renderAsync Sample.JSON_stringify
           Sample.basename Sample.read_error Sample.write_error
           "broken.docx" "out.html" initial_options Sample.disk "plain text"
           Sample.bad_zip).
  - vm_compute; reflexivity.
  - reflexivity.
Defined.

Lemma main_reports_rejection_witness :
  parseArgs ["broken.docx"; "out.html"; "--debug"] =
    Running [] (with_docx (set_debug true)
                  (set_output (Some "out.html")
                     (set_input (Some "broken.docx") initial_options))) /\
  snd (Sample.run ["broken.docx"; "out.html"; "--debug"] Sample.disk) =
    Exited [ConsoleLog ["Options:"; "{ debug: true }"];
            ConsoleLog ["Reading: broken.docx"];
            ConsoleLog ["Converting..."];
            ConsoleError ["Error:"; message Sample.bad_zip];
            ConsoleError [stack Sample.bad_zip]] 1.
Proof.
  split; [reflexivity |].
  apply (main_reports_rejection Sample.renderAsync Sample.JSON_stringify
           Sample.basename Sample.read_error Sample.write_error
           ["broken.docx"; "out.html"; "--debug"] Sample.disk Sample.disk []
           [ConsoleLog ["Options:"; "{ debug: true }"];
            ConsoleLog ["Reading: broken.docx"];
            ConsoleLog ["Converting..."]]
           (with_docx (set_debug true)
              (set_output (Some "out.html")
                 (set_input (Some "broken.docx") initial_options)))
           "broken.docx" Sample.bad_zip).
  - reflexivity.
  - reflexivity.
  - discriminate.
  - vm_compute. reflexivity.
Defined.

Lemma output_defaults_to_input_witness :
  parseArgs ["notes"] = Running [] (set_input (Some "notes") initial_options) /\
  ~ ends_in_docx "notes" /\
  fst (Sample.run ["notes"] Sample.disk) =
    <["notes" :=
        assemble_html Sample.basename "notes"
          (set_input (Some "notes") initial_options)
          ("<style>.docx { color: black }</style>",
           "<section><p>Hello</p></section>")]> Sample.disk.
Proof.
  assert (Hnot : ~ ends_in_docx "notes").
  { intros H. apply has_docx_suffix_spec in H. vm_compute in H. discriminate H. }
  split; [reflexivity |]. split; [exact Hnot |].
  destruct (output_defaults_to_input Sample.renderAsync Sample.JSON_stringify
              Sample.basename Sample.read_error Sample.write_error
              ["notes"] Sample.disk []
              (set_input (Some "notes") initial_options) "notes")
    as [_ Hother].
  - reflexivity.
  - reflexivity.
  - discriminate.
  - reflexivity.
  - destruct (Hother Hnot) as [_ Hwrite].
    apply (Hwrite "PK-notes").
    + vm_compute. reflexivity.
    + reflexivity.
    + reflexivity.
Defined.

Lemma direct_formatting_wins_witness :
  Cascade.style_chain 2 Sample.styles "Heading1" =
    Some [Cascade.mkStyle Cascade.Paragraph (Some "Normal")
            {[ "color" := "navy"; "font-size" := "16pt" ]};
          Cascade.mkStyle Cascade.Paragraph None
            {[ "color" := "black"; "font-family" := "serif" ]}] /\
  exists inherited named eff,
    Cascade.named_style_props Sample.styles (Some "Normal") = Some inherited /\
    inherited !! "color" = Some "black" /\
    Cascade.named_style_props Sample.styles (Some "Heading1") = Some named /\
    named !! "color" = Some "navy" /\
    Cascade.effective_style (fun _ => {[ "color" := "gray" ]}) Sample.styles ∅
      Sample.heading = Some eff /\
    eff !! "color" = Some "red".
Proof.
  split; [vm_compute; reflexivity |].
  apply (CascadeFacts.direct_formatting_wins
           (fun _ => {[ "color" := "gray" ]}) Sample.styles ∅ Sample.heading
           "Heading1" "Normal"
           (Cascade.mkStyle Cascade.Paragraph (Some "Normal")
              {[ "color" := "navy"; "font-size" := "16pt" ]})
           (Cascade.mkStyle Cascade.Paragraph None
              {[ "color" := "black"; "font-family" := "serif" ]})
           "color" "navy" "black" "red" 2
           [Cascade.mkStyle Cascade.Paragraph (Some "Normal")
              {[ "color" := "navy"; "font-size" := "16pt" ]};
            Cascade.mkStyle Cascade.Paragraph None
              {[ "color" := "black"; "font-family" := "serif" ]}]).
  - reflexivity.
  - vm_compute. reflexivity.
  - vm_compute. reflexivity.
  - reflexivity.
  - vm_compute. reflexivity.
  - vm_compute. reflexivity.
  - vm_compute. reflexivity.
  - vm_compute. reflexivity.
Defined.

(** * Further properties of the script *)

(** ** How one argument is handled *)

Lemma parseArg_help (o : Options) (arg : string) :
  is_help arg = true ->
  parseArg o arg = Exited [ConsoleLog [help_text]] 0.
Proof.
  unfold is_help, parseArg. intros H. rewrite H. reflexivity.
Qed.

Lemma documented_not_help (arg : string) :
  is_Some (documented_effect arg) -> is_help arg = false.
Proof.
  intros [e He]. unfold is_help.
  destruct (String.eqb_spec arg "--help") as [-> | _]; [discriminate He |].
  destruct (String.eqb_spec arg "-h") as [-> | _]; [discriminate He |].
  reflexivity.
Qed.

(** Every argument falls under one of four cases, which fix what the
    loop body does with it. *)
Lemma parseArg_cases (o : Options) (arg : string) :
  (accepted arg = false /\ is_help arg = true /\
   parseArg o arg = Exited [ConsoleLog [help_text]] 0) \/
  (accepted arg = false /\ is_help arg = false /\ unknown_option arg /\
   parseArg o arg = Exited [ConsoleError ["Unknown option: " +:+ arg]] 1) \/
  (accepted arg = true /\
   exists fld v o1,
     documented_effect arg = Some (fld, v) /\
     parseArg o arg = Running [] o1 /\
     get_field fld o1 = v /\
     forall f, f <> fld -> get_field f o1 = get_field f o) \/
  (accepted arg = true /\
   documented_effect arg = None /\
   startsWith arg "-" = false /\
   parseArg o arg =
     Running [] (if negb (truthy (input o)) then set_input (Some arg) o
                 else if negb (truthy (output o)) then set_output (Some arg) o
                 else o)).
Proof.
  unfold accepted.
  destruct (documented_effect arg) as [[fld v] |] eqn:Hdoc.
  - right. right. left. split; [reflexivity |].
    destruct (parseArg_documented o arg fld v Hdoc) as (o1 & H1 & H2 & H3).
    exists fld, v, o1. auto.
  - destruct (startsWith arg "-") eqn:Hdash; cbn [negb].
    + destruct (is_help arg) eqn:Hhelp.
      * left. auto using parseArg_help.
      * right. left.
        assert (Hunk : unknown_option arg).
        { unfold is_help in Hhelp. apply orb_false_iff in Hhelp as [H1 H2].
          apply String.eqb_neq in H1, H2. repeat split; assumption. }
        auto using parseArg_unknown.
    + right. right. right.
      rewrite (parseArg_positional o arg Hdash). auto.
Qed.

(** ** Which command lines [parseArgs] accepts *)

Lemma parseArgs_loop_accepted (args : list string) (o : Options) :
  forallb accepted args = true ->
  exists o', parseArgs_loop args o = Running [] o'.
Proof.
  revert o. induction args as [| arg args IH]; intros o H.
  - exists o. reflexivity.
  - cbn [forallb] in H. apply andb_true_iff in H as [Harg Hargs].
    cbn [parseArgs_loop].
    destruct (parseArg_cases o arg)
      as [(Hacc & _) | [(Hacc & _) | [(_ & fld & v & o1 & _ & Hstep & _)
                                     | (_ & _ & _ & Hstep)]]];
      try congruence.
    + rewrite Hstep. destruct (IH o1 Hargs) as [o' Ho'].
      exists o'. cbn [proc_bind]. rewrite Ho'. reflexivity.
    + rewrite Hstep. cbn [proc_bind].
      match goal with |- context [parseArgs_loop args ?o1] =>
        destruct (IH o1 Hargs) as [o' Ho']; exists o';
        rewrite Ho'; reflexivity
      end.
Qed.

Lemma parseArgs_loop_returns (args : list string) (o o' : Options)
    (out : list console_call) :
  parseArgs_loop args o = Running out o' ->
  forallb accepted args = true.
Proof.
  revert o o' out. induction args as [| arg args IH]; intros o o' out H;
    [reflexivity |].
  cbn [parseArgs_loop] in H. cbn [forallb].
  destruct (parseArg_cases o arg)
    as [(_ & _ & Hstep) | [(_ & _ & _ & Hstep)
                          | [(Hacc & fld & v & o1 & _ & Hstep & _)
                            | (Hacc & _ & _ & Hstep)]]];
    rewrite Hstep in H; cbn [proc_bind] in H; try discriminate H;
    rewrite Hacc; cbn [andb];
    match type of H with
    | context [parseArgs_loop args ?o1] =>
        destruct (parseArgs_loop args o1) as [out2 o2 | out2 c2] eqn:Hrest;
        [eapply IH; exact Hrest | discriminate H]
    end.
Qed.

(** X1: [parseArgs] returns exactly on the command lines all of whose
    arguments are documented flags or do not start with ['-'], and it
    has printed nothing when it returns. *)
Theorem parseArgs_returns_iff_accepted (args : list string) :
  (forallb accepted args = true -> exists o, parseArgs args = Running [] o) /\
  (forall out o,
      parseArgs args = Running out o ->
      out = [] /\ forallb accepted args = true).
Proof.
  unfold parseArgs. split.
  - apply parseArgs_loop_accepted.
  - intros out o H. split.
    + apply parseArgs_loop_running in H as (-> & _). reflexivity.
    + eapply parseArgs_loop_returns; exact H.
Qed.

Lemma parseArgs_returns_iff_accepted_witness :
  forallb accepted ["in.docx"; "--no-footers"; "--class-name=x"; ""; "out"] = true /\
  exists o,
    parseArgs ["in.docx"; "--no-footers"; "--class-name=x"; ""; "out"]
      = Running [] o.
Proof.
  split; [reflexivity |].
  apply (proj1 (parseArgs_returns_iff_accepted
                  ["in.docx"; "--no-footers"; "--class-name=x"; ""; "out"])).
  reflexivity.
Defined.

(** X2: the first argument that is not accepted decides how [parseArgs]
    ends: [--help] or [-h] prints the help text and exits with status 0,
    any other one is reported as an unknown option with status 1; the
    arguments after it are never looked at. *)
Theorem parseArgs_first_rejected (pre post : list string) (arg : string) :
  forallb accepted pre = true ->
  accepted arg = false ->
  parseArgs (pre ++ arg :: post) =
    if is_help arg then Exited [ConsoleLog [help_text]] 0
    else Exited [ConsoleError ["Unknown option: " +:+ arg]] 1.
Proof.
  intros Hpre Harg. unfold parseArgs.
  destruct (parseArgs_loop_accepted pre initial_options Hpre) as [o Ho].
  rewrite parseArgs_loop_app, Ho. cbn [parseArgs_loop proc_bind].
  destruct (parseArg_cases o arg)
    as [(_ & Hh & Hstep) | [(_ & Hh & _ & Hstep)
                           | [(Hacc & _) | (Hacc & _)]]];
    try congruence; rewrite Hstep, Hh; reflexivity.
Qed.

Lemma parseArgs_first_rejected_witness :
  forallb accepted ["a.docx"; "--debug"] = true /\
  accepted "-h" = false /\
  parseArgs (["a.docx"; "--debug"] ++ "-h" :: ["--bogus"; "b.html"]) =
    Exited [ConsoleLog [help_text]] 0.
Proof.
  split; [reflexivity |]. split; [reflexivity |].
  apply (parseArgs_first_rejected ["a.docx"; "--debug"] ["--bogus"; "b.html"] "-h");
    reflexivity.
Defined.

(** ** The flag table *)

Lemma documented_dash (arg : string) :
  is_Some (documented_effect arg) -> startsWith arg "-" = true.
Proof.
  intros [e He]. destruct arg as [| c arg]; [discriminate He |].
  cbn [startsWith]. rewrite andb_true_r.
  destruct (Ascii.eqb c "-") eqn:Hc; [reflexivity |].
  unfold documented_effect in He.
  cbn [assoc flag_table String.eqb startsWith] in He.
  rewrite Hc in He. discriminate He.
Qed.

Lemma table_documented (flag : string) (e : field * js_value) :
  assoc flag flag_table = Some e -> documented_effect flag = Some e.
Proof. intros H. unfold documented_effect. rewrite H. reflexivity. Qed.

(** A documented effect comes from the table, or is the one of a
    [--class-name=...] argument. *)
Lemma documented_origin (arg : string) (fld : field) (v : js_value) :
  documented_effect arg = Some (fld, v) ->
  assoc arg flag_table = Some (fld, v) \/
  (assoc arg flag_table = None /\ is_class_name arg = true /\
   fld = F_className /\ exists name, name_segment arg = Some name /\ v = JString name).
Proof.
  unfold documented_effect, is_class_name.
  destruct (assoc arg flag_table) as [e |]; [intros [= ->]; auto |].
  destruct (startsWith arg "--class-name="); [| discriminate].
  destruct (name_segment arg) as [name |]; [| discriminate].
  intros [= <- <-]. right. eauto 10.
Qed.

Ltac table_cases H :=
  cbn [assoc flag_table] in H;
  repeat match type of H with
         | context [if String.eqb ?a ?k then _ else _] =>
             destruct (String.eqb_spec a k) as [-> | ?]
         end.

(** The table designates no path field and not [className]. *)
Lemma table_field (flag : string) (fld : field) (v : js_value) :
  assoc flag flag_table = Some (fld, v) ->
  fld <> F_input /\ fld <> F_output /\ fld <> F_className /\
  is_class_name flag = false.
Proof.
  intros H. table_cases H; try discriminate H;
    injection H as <- <-; repeat split; discriminate.
Qed.

(** No two flags of the table designate the same field. *)
Lemma table_inj (flag1 flag2 : string) (fld : field) (v1 v2 : js_value) :
  assoc flag1 flag_table = Some (fld, v1) ->
  assoc flag2 flag_table = Some (fld, v2) ->
  flag1 = flag2.
Proof.
  intros H1 H2. table_cases H1; try discriminate H1;
    injection H1 as <- <-;
    table_cases H2; try discriminate H2; reflexivity.
Qed.

Lemma documented_field (arg : string) (fld : field) (v : js_value) :
  documented_effect arg = Some (fld, v) ->
  fld <> F_input /\ fld <> F_output.
Proof.
  intros H. apply documented_origin in H as [H | (_ & _ & -> & _)].
  - apply table_field in H as (? & ? & _). auto.
  - split; discriminate.
Qed.

(** ** Unfolding the loop *)

Lemma parseArgs_loop_cons_running (arg : string) (args : list string)
    (o o' : Options) (out : list console_call) :
  parseArgs_loop (arg :: args) o = Running out o' ->
  exists o1, parseArg o arg = Running [] o1 /\
             parseArgs_loop args o1 = Running out o'.
Proof.
  cbn [parseArgs_loop]. intros H.
  destruct (parseArg o arg) as [out1 o1 | out1 c1] eqn:Hstep; [| discriminate H].
  pose proof (parseArg_running _ _ _ _ Hstep) as (-> & _).
  exists o1. split; [reflexivity |].
  cbn [proc_bind] in H.
  destruct (parseArgs_loop args o1) as [out2 o2 | out2 c2]; [| discriminate H].
  cbn [app] in H. exact H.
Qed.

(** ** Boolean flags *)

Lemma parseArg_flag_field (o o1 : Options) (arg flag : string)
    (fld : field) (v : js_value) :
  parseArg o arg = Running [] o1 ->
  assoc flag flag_table = Some (fld, v) ->
  get_field fld o1 = if String.eqb flag arg then v else get_field fld o.
Proof.
  intros Hrun Hflag.
  pose proof (table_field _ _ _ Hflag) as (Hni & Hno & Hnc & _).
  destruct (parseArg_cases o arg)
    as [(_ & _ & Hstep) | [(_ & _ & _ & Hstep)
                          | [(_ & fld' & v' & o1' & Hdoc & Hstep & Hv & Hframe)
                            | (_ & Hdoc & _ & Hstep)]]];
    rewrite Hstep in Hrun; try discriminate Hrun; injection Hrun as <-.
  - destruct (String.eqb_spec flag arg) as [-> | Hne].
    + rewrite (table_documented _ _ Hflag) in Hdoc.
      injection Hdoc as <- <-. exact Hv.
    + apply Hframe. intros ->.
      apply documented_origin in Hdoc as [Htab | (_ & _ & -> & _)].
      * apply Hne. eapply table_inj; eassumption.
      * congruence.
  - destruct (String.eqb_spec flag arg) as [-> | _].
    + rewrite (table_documented _ _ Hflag) in Hdoc. discriminate Hdoc.
    + destruct (negb (truthy (input o))); [| destruct (negb (truthy (output o)))];
        destruct fld; try reflexivity; congruence.
Qed.

Lemma parseArgs_loop_flag_field (args : list string) (o o' : Options)
    (out : list console_call) (flag : string) (fld : field) (v : js_value) :
  parseArgs_loop args o = Running out o' ->
  assoc flag flag_table = Some (fld, v) ->
  get_field fld o' = if occurs flag args then v else get_field fld o.
Proof.
  intros Hrun Hflag. revert o Hrun.
  induction args as [| arg args IH]; intros o Hrun.
  - injection Hrun as _ <-. reflexivity.
  - apply parseArgs_loop_cons_running in Hrun as (o1 & Hstep & Hrest).
    rewrite (IH _ Hrest), (parseArg_flag_field _ _ _ _ _ _ Hstep Hflag).
    unfold occurs. cbn [existsb].
    destruct (String.eqb flag arg), (existsb (String.eqb flag) args); reflexivity.
Qed.

(** X3: on every accepted command line, a field designated by a flag of
    the table holds the flag's documented value if the flag occurs
    anywhere among the arguments, and its initial value otherwise:
    neither the position of a flag nor its repetition matters. *)
Theorem parseArgs_flag_presence (args : list string) (out : list console_call)
    (o : Options) (flag : string) (fld : field) (v : js_value) :
  parseArgs args = Running out o ->
  assoc flag flag_table = Some (fld, v) ->
  get_field fld o =
    if occurs flag args then v else get_field fld initial_options.
Proof. apply parseArgs_loop_flag_field. Qed.

Lemma parseArgs_flag_presence_witness :
  parseArgs ["--no-headers"; "a.docx"; "--debug"; "--no-headers"] =
    Running [] (with_docx (set_renderHeaders false)
                  (with_docx (set_debug true)
                     (set_input (Some "a.docx")
                        (with_docx (set_renderHeaders false) initial_options)))) /\
  assoc "--no-headers" flag_table = Some (F_renderHeaders, JBool false) /\
  get_field F_renderHeaders
    (with_docx (set_renderHeaders false)
       (with_docx (set_debug true)
          (set_input (Some "a.docx")
             (with_docx (set_renderHeaders false) initial_options))))
  = JBool false.
Proof.
  split; [reflexivity |]. split; [reflexivity |].
  apply (parseArgs_flag_presence
           ["--no-headers"; "a.docx"; "--debug"; "--no-headers"] []
           _ "--no-headers" F_renderHeaders (JBool false)); reflexivity.
Defined.

(** ** The class name *)

Lemma positional_not_class_name (arg : string) :
  startsWith arg "-" = false -> is_class_name arg = false.
Proof.
  unfold is_class_name. destruct arg as [| c arg]; [reflexivity |].
  cbn [startsWith]. rewrite andb_true_r. intros ->. reflexivity.
Qed.

Lemma className_of_field (o o1 : Options) :
  get_field F_className o1 = get_field F_className o ->
  className (docxOptions o1) = className (docxOptions o).
Proof.
  cbn [get_field].
  destruct (className (docxOptions o1)), (className (docxOptions o));
    cbn [js_of_name]; congruence.
Qed.

Lemma parseArg_className (o o1 : Options) (arg : string) :
  parseArg o arg = Running [] o1 ->
  className (docxOptions o1) =
    if is_class_name arg then name_segment arg else className (docxOptions o).
Proof.
  intros Hrun.
  destruct (parseArg_cases o arg)
    as [(_ & _ & Hstep) | [(_ & _ & _ & Hstep)
                          | [(_ & fld & v & o1' & Hdoc & Hstep & Hv & Hframe)
                            | (_ & _ & Hdash & Hstep)]]];
    rewrite Hstep in Hrun; try discriminate Hrun; injection Hrun as <-.
  - apply documented_origin in Hdoc
      as [Htab | (_ & Hcn & -> & name & Hseg & ->)].
    + apply table_field in Htab as (_ & _ & Hnc & ->).
      apply className_of_field, Hframe. congruence.
    + rewrite Hcn, Hseg. cbn [get_field] in Hv.
      destruct (className (docxOptions o1')); cbn [js_of_name] in Hv; congruence.
  - rewrite (positional_not_class_name _ Hdash).
    destruct (negb (truthy (input o))); [| destruct (negb (truthy (output o)))];
      reflexivity.
Qed.

Lemma parseArgs_loop_className (args : list string) (o o' : Options)
    (out : list console_call) :
  parseArgs_loop args o = Running out o' ->
  className (docxOptions o') =
    match last (class_name_arguments args) with
    | Some arg => name_segment arg
    | None => className (docxOptions o)
    end.
Proof.
  revert o. induction args as [| arg args IH]; intros o Hrun.
  - injection Hrun as _ <-. reflexivity.
  - apply parseArgs_loop_cons_running in Hrun as (o1 & Hstep & Hrest).
    rewrite (IH _ Hrest), (parseArg_className _ _ _ Hstep).
    unfold class_name_arguments. cbn [List.filter].
    destruct (is_class_name arg); [| reflexivity].
    rewrite last_cons.
    destruct (last (List.filter is_class_name args)); reflexivity.
Qed.

(** X4: on every accepted command line the class name is the one given
    by the last [--class-name=...] argument, and ["docx"] when there is
    none. *)
Theorem parseArgs_className_last (args : list string)
    (out : list console_call) (o : Options) :
  parseArgs args = Running out o ->
  className (docxOptions o) =
    match last (class_name_arguments args) with
    | Some arg => name_segment arg
    | None => Some "docx"
    end.
Proof. apply parseArgs_loop_className. Qed.

Lemma parseArgs_className_last_witness :
  parseArgs ["--class-name=first"; "a.docx"; "--class-name=second"; "--debug"] =
    Running [] (with_docx (set_debug true)
                  (with_docx (set_className (Some "second"))
                     (set_input (Some "a.docx")
                        (with_docx (set_className (Some "first"))
                           initial_options)))) /\
  className
    (docxOptions
       (with_docx (set_debug true)
          (with_docx (set_className (Some "second"))
             (set_input (Some "a.docx")
                (with_docx (set_className (Some "first")) initial_options)))))
  = Some "second".
Proof.
  split; [reflexivity |].
  apply (parseArgs_className_last
           ["--class-name=first"; "a.docx"; "--class-name=second"; "--debug"] []).
  reflexivity.
Defined.

Lemma up_to_append (name tail : string) :
  after_first "=" name = None ->
  tail = "" \/ startsWith tail "=" = true ->
  up_to "=" (name +:+ tail) = name.
Proof.
  intros Hname Htail. induction name as [| a name IH].
  - rewrite append_nil_l.
    destruct Htail as [-> | Htail]; [reflexivity |].
    destruct tail as [| b tail]; [reflexivity |].
    cbn [startsWith] in Htail. rewrite andb_true_r in Htail.
    cbn [up_to]. rewrite Htail. reflexivity.
  - cbn [after_first] in Hname. rewrite append_cons. cbn [up_to].
    destruct (Ascii.eqb a "="); [discriminate Hname |].
    rewrite (IH Hname). reflexivity.
Qed.

Lemma class_name_argument (name tail : string) :
  after_first "=" name = None ->
  tail = "" \/ startsWith tail "=" = true ->
  documented_effect ("--class-name=" +:+ name +:+ tail)
    = Some (F_className, JString name).
Proof.
  intros Hname Htail.
  unfold documented_effect, name_segment.
  change (assoc ("--class-name=" +:+ name +:+ tail) flag_table) with (@None (field * js_value)).
  rewrite startsWith_append.
  change (after_first "=" ("--class-name=" +:+ name +:+ tail))
    with (Some (name +:+ tail)).
  cbn [fmap option_fmap option_map]. rewrite (up_to_append _ _ Hname Htail).
  reflexivity.
Qed.

(** X5: a class name without ['='] is taken over as it is; whatever
    follows a second ['='] of the argument is dropped without a
    message. *)
Theorem class_name_cut_at_equals (args : list string) (out : list console_call)
    (o : Options) (name tail : string) :
  parseArgs args = Running out o ->
  after_first "=" name = None ->
  tail = "" \/ startsWith tail "=" = true ->
  exists o',
    parseArgs (args ++ ["--class-name=" +:+ name +:+ tail]) = Running out o' /\
    className (docxOptions o') = Some name.
Proof.
  intros Hargs Hname Htail. unfold parseArgs in *.
  pose proof (class_name_argument _ _ Hname Htail) as Hdoc.
  destruct (parseArg_documented o _ _ _ Hdoc) as (o' & Hstep & Hv & _).
  exists o'. split.
  - rewrite parseArgs_loop_app, Hargs. cbn [parseArgs_loop proc_bind].
    rewrite Hstep. cbn [proc_bind proc_ret]. rewrite !app_nil_r. reflexivity.
  - cbn [get_field] in Hv.
    destruct (className (docxOptions o')); cbn [js_of_name] in Hv; congruence.
Qed.

Lemma class_name_cut_at_equals_witness :
  parseArgs ["a.docx"] = Running [] (set_input (Some "a.docx") initial_options) /\
  after_first "=" "memo" = None /\
  exists o',
    parseArgs (["a.docx"] ++ ["--class-name=" +:+ "memo" +:+ "=dark=2"])
      = Running [] o' /\
    className (docxOptions o') = Some "memo".
Proof.
  split; [reflexivity |]. split; [reflexivity |].
  apply (class_name_cut_at_equals ["a.docx"] []
           (set_input (Some "a.docx") initial_options) "memo" "=dark=2").
  - reflexivity.
  - reflexivity.
  - right. reflexivity.
Defined.

(** ** The two paths *)

Lemma path_of_field (o o1 : Options) :
  get_field F_input o1 = get_field F_input o ->
  get_field F_output o1 = get_field F_output o ->
  input o1 = input o /\ output o1 = output o.
Proof.
  cbn [get_field].
  destruct (input o1), (input o), (output o1), (output o);
    cbn [js_of_path]; intros H1 H2; split; congruence.
Qed.

Lemma parseArgs_loop_paths (args : list string) (o o' : Options)
    (out : list console_call) :
  parseArgs_loop args o = Running out o' ->
  given (input o') =
    match given (input o) with
    | Some i => Some i
    | None => head (path_arguments args)
    end /\
  given (output o') =
    match given (output o) with
    | Some u => Some u
    | None =>
        match given (input o) with
        | Some _ => head (path_arguments args)
        | None => path_arguments args !! 1
        end
    end.
Proof.
  revert o. induction args as [| arg args IH]; intros o Hrun.
  - injection Hrun as _ <-.
    destruct (given (input o)), (given (output o)); auto.
  - apply parseArgs_loop_cons_running in Hrun as (o1 & Hstep & Hrest).
    destruct (IH _ Hrest) as [-> ->]. clear IH Hrest.
    unfold path_arguments. cbn [List.filter].
    destruct (parseArg_cases o arg)
      as [(_ & _ & Hstep') | [(_ & _ & _ & Hstep')
                             | [(_ & fld & v & o1' & Hdoc & Hstep' & _ & Hframe)
                               | (_ & _ & Hdash & Hstep')]]];
      rewrite Hstep' in Hstep; try discriminate Hstep; injection Hstep as <-.
    + pose proof (documented_field _ _ _ Hdoc) as [Hni Hno].
      destruct (path_of_field o o1' (Hframe F_input (not_eq_sym Hni))
                  (Hframe F_output (not_eq_sym Hno))) as [-> ->].
      assert (Hp : is_path_argument arg = false).
      { unfold is_path_argument.
        rewrite (documented_dash arg) by (rewrite Hdoc; eauto). reflexivity. }
      rewrite Hp. auto.
    + assert (Hp : is_path_argument arg = negb (String.eqb arg "")).
      { unfold is_path_argument. rewrite Hdash. reflexivity. }
      rewrite Hp. unfold given.
      destruct (truthy (input o)) eqn:Hti;
        [destruct (truthy (output o)) eqn:Hto |];
        cbn [negb input output set_input set_output];
        rewrite ?Hti, ?Hto; cbn [truthy];
        destruct (String.eqb arg ""); cbn [negb];
        destruct (input o), (output o);
        destruct (List.filter is_path_argument args) as [| p1 [| p2 ps]];
        cbn; auto; discriminate.
Qed.

(** X6: on every accepted command line, [input] and [output] are the
    first and the second argument that neither starts with ['-'] nor is
    empty, wherever the flags stand; further such arguments are
    ignored, and a field without its argument is [null] or empty. *)
Theorem parseArgs_paths (args : list string) (out : list console_call)
    (o : Options) :
  parseArgs args = Running out o ->
  given (input o) = head (path_arguments args) /\
  given (output o) = path_arguments args !! 1.
Proof.
  intros H. apply parseArgs_loop_paths in H. exact H.
Qed.

Lemma parseArgs_paths_witness :
  parseArgs [""; "a.docx"; "--debug"; "b.html"; "c.html"] =
    Running [] (set_output (Some "b.html")
                  (with_docx (set_debug true)
                     (set_input (Some "a.docx")
                        (set_input (Some "") initial_options)))) /\
  given (input (set_output (Some "b.html")
                  (with_docx (set_debug true)
                     (set_input (Some "a.docx")
                        (set_input (Some "") initial_options)))))
    = head (path_arguments [""; "a.docx"; "--debug"; "b.html"; "c.html"]) /\
  given (output (set_output (Some "b.html")
                   (with_docx (set_debug true)
                      (set_input (Some "a.docx")
                         (set_input (Some "") initial_options)))))
    = path_arguments [""; "a.docx"; "--debug"; "b.html"; "c.html"] !! 1.
Proof.
  split; [reflexivity |].
  apply (parseArgs_paths [""; "a.docx"; "--debug"; "b.html"; "c.html"] []).
  reflexivity.
Defined.

(** ** More on the default output path *)

Lemma matches_to_end_length (pat s : string) :
  matches_to_end pat s = true -> String.length s = String.length pat.
Proof.
  revert s. induction pat as [| p pat IH]; intros [| c s] H;
    cbn [matches_to_end] in H; try discriminate H; [reflexivity |].
  apply andb_true_iff in H as [_ H]. cbn [String.length].
  rewrite (IH _ H). reflexivity.
Qed.

Lemma append_inj_l (stem a b : string) :
  stem +:+ a = stem +:+ b -> a = b.
Proof.
  induction stem as [| c stem IH]; [rewrite !append_nil_l; auto |].
  rewrite !append_cons. intros [= H]. auto.
Qed.

(** A path that ends in [.html] is left alone. *)
Lemma default_output_html (stem : string) :
  default_output (stem +:+ ".html") = stem +:+ ".html".
Proof.
  unfold default_output. induction stem as [| c stem IH]; [reflexivity |].
  rewrite append_cons. cbn [replace_at_end].
  destruct (matches_to_end ".docx" (String c (stem +:+ ".html"))) eqn:Hm.
  - apply matches_to_end_length in Hm. cbn [String.length] in Hm.
    rewrite length_append in Hm. cbn [String.length] in Hm. lia.
  - rewrite IH. reflexivity.
Qed.

Lemma default_output_differs (path : string) :
  ends_in_docx path -> default_output path <> path.
Proof.
  intros (stem & ext & -> & Hext).
  rewrite (default_output_docx _ _ Hext). intros H.
  apply append_inj_l in H. subst ext. discriminate Hext.
Qed.

Lemma ends_in_docx_dec (path : string) :
  ends_in_docx path \/ ~ ends_in_docx path.
Proof.
  rewrite has_docx_suffix_spec.
  destruct (has_docx_suffix path); [left | right]; congruence.
Qed.

(** X7: the default output path differs from the input path exactly
    when the input path ends in [.docx] (in any case); it has the
    length of the input path, and computing it from its own result
    changes nothing. *)
Theorem default_output_shape (path : string) :
  (default_output path = path <-> ~ ends_in_docx path) /\
  String.length (default_output path) = String.length path /\
  default_output (default_output path) = default_output path.
Proof.
  destruct (ends_in_docx_dec path) as [Hends | Hnot].
  - pose proof (default_output_differs _ Hends) as Hdiff.
    destruct Hends as (stem & ext & -> & Hext).
    rewrite (default_output_docx _ _ Hext) in *.
    split; [split; intros H; [congruence | exfalso; apply H; exists stem, ext; auto] |].
    split.
    + rewrite !length_append, <- (length_lowercase ext), Hext. reflexivity.
    + apply default_output_html.
  - rewrite (default_output_other _ Hnot).
    split; [tauto |]. split; [reflexivity |].
    apply default_output_other, Hnot.
Qed.

Lemma default_output_shape_witness :
  default_output "Report.DOCX" <> "Report.DOCX" /\
  default_output "Report.DOCX" = "Report.html" /\
  default_output (default_output "Report.DOCX") = default_output "Report.DOCX".
Proof.
  destruct (default_output_shape "Report.DOCX") as [[Hfix _] [_ Hidem]].
  split; [| split; [reflexivity | exact Hidem]].
  intros H. apply (Hfix H). exists "Report", ".DOCX". split; reflexivity.
Defined.

(** ** Whole runs of the script *)

Lemma parseArgs_loop_exits (args : list string) (o : Options)
    (out : list console_call) (code : Z) :
  parseArgs_loop args o = Exited out code ->
  (code = 0%Z /\ out = [ConsoleLog [help_text]] /\
   existsb is_help args = true) \/
  (code = 1%Z /\ exists arg, In arg args /\ unknown_option arg /\
                 out = [ConsoleError ["Unknown option: " +:+ arg]]).
Proof.
  revert o. induction args as [| arg args IH]; intros o H; [discriminate H |].
  cbn [parseArgs_loop] in H. cbn [existsb In].
  destruct (parseArg_cases o arg)
    as [(_ & Hh & Hstep) | [(_ & _ & Hunk & Hstep)
                           | [(_ & fld & v & o1 & _ & Hstep & _)
                             | (_ & _ & _ & Hstep)]]];
    rewrite Hstep in H; cbn [proc_bind] in H.
  - injection H as <- <-. left. rewrite Hh. auto.
  - injection H as <- <-. right. eauto 10.
  - destruct (parseArgs_loop args o1) as [out2 o2 | out2 c2] eqn:Hrest;
      [discriminate H |].
    injection H as <- <-.
    destruct (IH _ Hrest) as [(-> & -> & ->) | (-> & a & Ha & Hu & ->)].
    + left. rewrite orb_true_r. auto.
    + right. eauto 10.
  - match type of H with
    | context [parseArgs_loop args ?o1] =>
        destruct (parseArgs_loop args o1) as [out2 o2 | out2 c2] eqn:Hrest
    end; [discriminate H |].
    injection H as <- <-.
    destruct (IH _ Hrest) as [(-> & -> & ->) | (-> & a & Ha & Hu & ->)].
    + left. rewrite orb_true_r. auto.
    + right. eauto 10.
Qed.

Section MainFacts.

Variable renderAsync : string -> DocxOptions -> settled (string * string).
Variable JSON_stringify : DocxOptions -> string.
Variable basename : string -> string -> string.
Variable read_error : string -> js_error.
Variable write_error : string -> option js_error.

Local Abbreviation convert :=
  (convertDocxToHtml renderAsync JSON_stringify basename read_error write_error).
Local Abbreviation run_main :=
  (main renderAsync JSON_stringify basename read_error write_error).

Ltac unfold_convert :=
  unfold convertDocxToHtml, task_bind, task_when, task_log, task_ret,
    readFileSync, await_renderAsync, writeFileSync.

(** The main block once the arguments are parsed and name an input. *)
Lemma main_with_input (args : list string) (fs : gmap string string)
    (out : list console_call) (o : Options) (inputPath : string) :
  parseArgs args = Running out o ->
  input o = Some inputPath ->
  inputPath <> "" ->
  run_main args fs =
    match convert inputPath (resolve_output inputPath o)
            (set_output (Some (resolve_output inputPath o)) o) fs with
    | (log, fs', Resolved _) => (fs', Running log tt)
    | (log, fs', Rejected err) =>
        (fs', Exited (log ++ ConsoleError ["Error:"; message err]
                          :: (if debug (docxOptions o)
                              then [ConsoleError [stack err]] else []))%list 1)
    end.
Proof.
  intros Hargs Hin Hne.
  pose proof Hargs as Hquiet. unfold parseArgs in Hquiet.
  apply parseArgs_loop_running in Hquiet as (-> & _).
  unfold main. rewrite Hargs, Hin.
  apply String.eqb_neq in Hne. rewrite Hne. cbv zeta.
  destruct (convert _ _ _ fs) as [[log fs'] [[] | err]]; [reflexivity |].
  unfold on_rejected, console_error, process_exit, proc_ret.
  cbn [proc_bind docxOptions set_output app].
  destruct (debug (docxOptions o)); cbn [proc_bind app];
    rewrite ?app_nil_r; reflexivity.
Qed.

(** The main block when the arguments name no input. *)
Lemma main_without_input (args : list string) (fs : gmap string string)
    (out : list console_call) (o : Options) :
  parseArgs args = Running out o ->
  given (input o) = None ->
  run_main args fs =
    (fs, Exited [ConsoleError ["Error: No input file specified"];
                 ConsoleLog ["Usage: node scripts/docx-to-html.mjs <input.docx> [output.html] [options]"];
                 ConsoleLog ["Use --help for more information"]] 1).
Proof.
  intros Hargs Hin.
  pose proof Hargs as Hquiet. unfold parseArgs in Hquiet.
  apply parseArgs_loop_running in Hquiet as (-> & _).
  unfold main. rewrite Hargs.
  unfold given, truthy in Hin.
  destruct (input o) as [i |]; [| reflexivity].
  destruct (String.eqb i ""); [reflexivity | discriminate Hin].
Qed.

(** X8: a command line that [parseArgs] accepts but that holds no
    non-empty positional argument ends the process with status 1 after
    the "No input file" message and two usage lines; no file is read or
    written and the renderer is not called. *)
Theorem main_no_input (args : list string) (fs : gmap string string) :
  forallb accepted args = true ->
  path_arguments args = [] ->
  run_main args fs =
    (fs, Exited [ConsoleError ["Error: No input file specified"];
                 ConsoleLog ["Usage: node scripts/docx-to-html.mjs <input.docx> [output.html] [options]"];
                 ConsoleLog ["Use --help for more information"]] 1).
Proof.
  intros Hacc Hpaths.
  destruct (parseArgs_loop_accepted args initial_options Hacc) as [o Ho].
  apply (main_without_input args fs [] o Ho).
  destruct (parseArgs_loop_paths _ _ _ _ Ho) as [Hin _].
  rewrite Hin, Hpaths. reflexivity.
Qed.

(** X9: when the input path names no file, the conversion stops at the
    read: the process prints the [Reading:] line (after the options
    line under [debug]), reports the read error and exits with status
    1, whatever the renderer would have done, and leaves the file
    system as it was. *)
Theorem main_missing_file (args : list string) (fs : gmap string string)
    (out : list console_call) (o : Options) (inputPath : string) :
  parseArgs args = Running out o ->
  input o = Some inputPath ->
  inputPath <> "" ->
  fs !! inputPath = None ->
  run_main args fs =
    (fs,
     Exited ((if debug (docxOptions o)
              then [ConsoleLog ["Options:"; JSON_stringify (docxOptions o)]]
              else []) ++
             [ConsoleLog ["Reading: " +:+ inputPath];
              ConsoleError ["Error:"; message (read_error inputPath)]] ++
             (if debug (docxOptions o)
              then [ConsoleError [stack (read_error inputPath)]] else []))%list
            1).
Proof.
  intros Hargs Hin Hne Hfile.
  rewrite (main_with_input args fs out o inputPath Hargs Hin Hne).
  unfold_convert. cbn [docxOptions set_output].
  destruct (debug (docxOptions o)); cbn; rewrite Hfile; reflexivity.
Qed.

(** X10: when the input file is there, the renderer resolves and the
    output path can be written, the run ends without [process.exit]:
    the output path holds the assembled document, and the console shows
    [Reading:], [Converting...], [Output:] and [Done!] in this order
    (after the options line under [debug]). *)
Theorem main_success (args : list string) (fs : gmap string string)
    (out : list console_call) (o : Options) (inputPath buf : string)
    (rendered : string * string) :
  parseArgs args = Running out o ->
  input o = Some inputPath ->
  inputPath <> "" ->
  fs !! inputPath = Some buf ->
  renderAsync buf (docxOptions o) = Resolved rendered ->
  write_error (resolve_output inputPath o) = None ->
  run_main args fs =
    (<[resolve_output inputPath o :=
         assemble_html basename inputPath o rendered]> fs,
     Running ((if debug (docxOptions o)
               then [ConsoleLog ["Options:"; JSON_stringify (docxOptions o)]]
               else []) ++
              [ConsoleLog ["Reading: " +:+ inputPath];
               ConsoleLog ["Converting..."];
               ConsoleLog ["Output: " +:+ resolve_output inputPath o];
               ConsoleLog ["Done!"]])%list tt).
Proof.
  intros Hargs Hin Hne Hfile Hr Hw.
  rewrite (main_with_input args fs out o inputPath Hargs Hin Hne).
  unfold_convert. cbn [docxOptions set_output].
  destruct (debug (docxOptions o)); cbn; rewrite Hfile; cbn;
    rewrite Hr, Hw; reflexivity.
Qed.



(** X13: without an output path on the command line, an input file
    whose name ends in [.docx] (in any case) is never written: it holds
    after the run what it held before. *)
Theorem main_keeps_docx_input (args : list string) (fs : gmap string string)
    (out : list console_call) (o : Options) (inputPath : string) :
  parseArgs args = Running out o ->
  input o = Some inputPath ->
  truthy (output o) = false ->
  ends_in_docx inputPath ->
  fst (run_main args fs) !! inputPath = fs !! inputPath.
Proof.
  intros Hargs Hin Hout Hends.
  destruct (String.eqb_spec inputPath "") as [-> | Hne].
  { apply has_docx_suffix_spec in Hends. discriminate Hends. }
  rewrite (main_with_input args fs out o inputPath Hargs Hin Hne).
  assert (Hres : resolve_output inputPath o <> inputPath).
  { unfold resolve_output. unfold truthy in Hout.
    destruct (output o) as [u |]; [| apply default_output_differs, Hends].
    apply negb_false_iff in Hout. rewrite Hout.
    apply default_output_differs, Hends. }
  destruct (convert _ _ _ fs) as [[log fs'] r] eqn:Hrun.
  assert (Hfs : fs' !! inputPath = fs !! inputPath).
  { destruct (convert_outcome _ _ _ _ _ _ _ _ _ _ _ _ Hrun)
      as [[-> _] | (buf & rendered & _ & _ & _ & -> & _)]; [reflexivity |].
    apply lookup_insert_ne. exact Hres. }
  destruct r as [[] | err]; exact Hfs.
Qed.

(** X14: the [--body-only] flag, wherever it stands, decides the shape
    of the document: with it the file holds the style markup, a line
    break and the content markup and nothing else; without it the two
    are set into the full HTML page. *)
Theorem body_only_shape (args : list string) (out : list console_call)
    (o : Options) (inputPath styleHTML containerHTML : string) :
  parseArgs args = Running out o ->
  assemble_html basename inputPath o (styleHTML, containerHTML) =
    if occurs "--body-only" args
    then styleHTML +:+ newline +:+ containerHTML
    else html_document basename inputPath styleHTML containerHTML.
Proof.
  intros Hargs. unfold parseArgs in Hargs.
  pose proof (parseArgs_loop_flag_field _ _ _ _ "--body-only" F_bodyOnly
                (JBool true) Hargs eq_refl) as H.
  cbn [get_field] in H. unfold assemble_html.
  destruct (occurs "--body-only" args); injection H as ->; reflexivity.
Qed.

(** X15: the [Done!] line is the last thing a run prints when it ends
    without [process.exit], and a run that exits never prints it. *)
Theorem done_only_on_success (args : list string) (fs : gmap string string) :
  match snd (main renderAsync JSON_stringify basename read_error write_error
               args fs) with
  | Running out _ => last out = Some (ConsoleLog ["Done!"])
  | Exited out _ => ~ In (ConsoleLog ["Done!"]) out
  end.
Proof.
  destruct (parseArgs args) as [out o | out code] eqn:Hargs.
  - destruct (given (input o)) as [inputPath |] eqn:Hgiven.
    + assert (Hin : input o = Some inputPath /\ inputPath <> "").
      { unfold given, truthy in Hgiven.
        destruct (input o) as [i |]; [| discriminate Hgiven].
        destruct (String.eqb_spec i ""); [discriminate Hgiven |].
        injection Hgiven as <-. auto. }
      destruct Hin as [Hin Hne].
      rewrite (main_with_input args fs out o inputPath Hargs Hin Hne).
      unfold_convert. cbn [docxOptions set_output].
      destruct (debug (docxOptions o)); cbn;
        destruct (fs !! inputPath) as [buf |]; cbn;
        try destruct (renderAsync buf (docxOptions o)) as [rendered | err]; cbn;
        try destruct (write_error (resolve_output inputPath o)); cbn;
        try reflexivity;
        intros H; repeat (destruct H as [H | H]; [discriminate H |]);
        exact H.
    + rewrite (main_without_input args fs out o Hargs Hgiven). cbn.
      intros H; repeat (destruct H as [H | H]; [discriminate H |]); exact H.
  - unfold main. rewrite Hargs. cbn [snd].
    unfold parseArgs in Hargs.
    destruct (parseArgs_loop_exits _ _ _ _ Hargs)
      as [(-> & -> & Hh) | (-> & a & _ & _ & ->)];
      intros [H | []]; discriminate H.
Qed.

End MainFacts.

(** ** Concrete runs, continued *)

Lemma main_no_input_witness :
  forallb accepted ["--debug"; ""; "--body-only"] = true /\
  path_arguments ["--debug"; ""; "--body-only"] = [] /\
  Sample.run ["--debug"; ""; "--body-only"] Sample.disk =
    (Sample.disk,
     Exited [ConsoleError ["Error: No input file specified"];
             ConsoleLog ["Usage: node scripts/docx-to-html.mjs <input.docx> [output.html] [options]"];
             ConsoleLog ["Use --help for more information"]] 1).
Proof.
  split; [reflexivity |]. split; [reflexivity |].
  apply (main_no_input Sample.renderAsync Sample.JSON_stringify Sample.basename
           Sample.read_error Sample.write_error
           ["--debug"; ""; "--body-only"] Sample.disk); reflexivity.
Defined.

Lemma main_missing_file_witness :
  parseArgs ["absent.docx"] =
    Running [] (set_input (Some "absent.docx") initial_options) /\
  Sample.disk !! "absent.docx" = None /\
  Sample.run ["absent.docx"] Sample.disk =
    (Sample.disk,
     Exited [ConsoleLog ["Reading: absent.docx"];
             ConsoleError ["Error:"; message (Sample.read_error "absent.docx")]] 1).
Proof.
  split; [reflexivity |]. split; [vm_compute; reflexivity |].
  apply (main_missing_file Sample.renderAsync Sample.JSON_stringify Sample.basename
           Sample.read_error Sample.write_error
           ["absent.docx"] Sample.disk []
           (set_input (Some "absent.docx") initial_options) "absent.docx").
  - reflexivity.
  - reflexivity.
  - discriminate.
  - vm_compute. reflexivity.
Defined.

Lemma main_success_witness :
  parseArgs ["memo.docx"; "out.html"] =
    Running [] (set_output (Some "out.html")
                  (set_input (Some "memo.docx") initial_options)) /\
  Sample.disk !! "memo.docx" = Some "PK-memo" /\
  Sample.run ["memo.docx"; "out.html"] Sample.disk =
    (<["out.html" :=
         assemble_html Sample.basename "memo.docx"
           (set_output (Some "out.html")
              (set_input (Some "memo.docx") initial_options))
           ("<style>.docx { color: black }</style>",
            "<section><p>Hello</p></section>")]> Sample.disk,
     Running [ConsoleLog ["Reading: memo.docx"];
              ConsoleLog ["Converting..."];
              ConsoleLog ["Output: out.html"];
              ConsoleLog ["Done!"]] tt).
Proof.
  split; [reflexivity |]. split; [vm_compute; reflexivity |].
  apply (main_success Sample.renderAsync Sample.JSON_stringify Sample.basename
           Sample.read_error Sample.write_error
           ["memo.docx"; "out.html"] Sample.disk []
           (set_output (Some "out.html")
              (set_input (Some "memo.docx") initial_options))
           "memo.docx" "PK-memo").
  - reflexivity.
  - reflexivity.
  - discriminate.
  - vm_compute. reflexivity.
  - reflexivity.
  - reflexivity.
Defined.


Lemma main_keeps_docx_input_witness :
  parseArgs ["memo.docx"] =
    Running [] (set_input (Some "memo.docx") initial_options) /\
  ends_in_docx "memo.docx" /\
  fst (Sample.run ["memo.docx"] Sample.disk) !! "memo.docx"
    = Sample.disk !! "memo.docx".
Proof.
  assert (Hends : ends_in_docx "memo.docx").
  { exists "memo", ".docx". split; reflexivity. }
  split; [reflexivity |]. split; [exact Hends |].
  apply (main_keeps_docx_input Sample.renderAsync Sample.JSON_stringify
           Sample.basename Sample.read_error Sample.write_error
           ["memo.docx"] Sample.disk []
           (set_input (Some "memo.docx") initial_options) "memo.docx").
  - reflexivity.
  - reflexivity.
  - reflexivity.
  - exact Hends.
Defined.

Lemma body_only_shape_witness :
  parseArgs ["--body-only"; "memo.docx"] =
    Running [] (set_input (Some "memo.docx")
                  (set_bodyOnly true initial_options)) /\
  assemble_html Sample.basename "memo.docx"
    (set_input (Some "memo.docx") (set_bodyOnly true initial_options))
    ("<style></style>", "<p>Hello</p>")
  = "<style></style>" +:+ newline +:+ "<p>Hello</p>".
Proof.
  split; [reflexivity |].
  apply (body_only_shape Sample.basename ["--body-only"; "memo.docx"] []
           (set_input (Some "memo.docx") (set_bodyOnly true initial_options))
           "memo.docx" "<style></style>" "<p>Hello</p>").
  reflexivity.
Defined.
